(** * ODP-API CKAN adapter: a shallow embedding and its verified properties

    The adapter of [odp_api_adapters/ckan_adapter.py] translates between
    the ODP domain model and the dictionaries of a CKAN server, and drives
    short sequences of remote actions.  Python values are embedded as
    [pyval], exceptions as values of an error monad, and the remote server
    as an arbitrary state machine behind [call_action]; every remote call
    and every log record is kept in the state so that statements about
    what was (not) sent to the server can be made. *)

From Stdlib Require Import ZArith Ascii String.
From stdpp Require Import gmap strings pretty list fin_maps.

#[local] Set Warnings "-register-all".
#[local] Open Scope string_scope.

(** ** Python values *)

Module Py.

(** JSON-shaped Python values: what [ckanapi] hands back from an action and
    what is sent in a [data_dict].  Objects are [dict]s with [str] keys;
    numbers are integers. *)
Inductive pyval : Type :=
  | PNone
  | PBool (b : bool)
  | PInt (z : Z)
  | PStr (s : string)
  | PList (l : list pyval)
  | PDict (d : gmap string pyval).

#[global] Instance pyval_inhabited : Inhabited pyval := populate PNone.

#[global] Instance pyval_eq_dec : EqDecision pyval.
Proof.
  refine (fix go (x y : pyval) : Decision (x = y) :=
    match x, y with
    | PNone, PNone => left _
    | PBool a, PBool b => cast_if (decide (a = b))
    | PInt a, PInt b => cast_if (decide (a = b))
    | PStr a, PStr b => cast_if (decide (a = b))
    | PList a, PList b => cast_if (@decide (a = b) (@list_eq_dec _ go a b))
    | PDict a, PDict b =>
        cast_if (@decide (a = b) (@gmap_eq_dec _ _ _ _ go a b))
    | _, _ => right _
    end); abstract congruence.
Defined.

(** [bool] is a subclass of [int] in Python: [True == 1] and [False == 0],
    also inside lists and dicts.  [py_norm] maps every value to the
    representative of its [==]-class. *)
Fixpoint py_norm (v : pyval) : pyval :=
  match v with
  | PBool b => PInt (if b then 1 else 0)
  | PList l => PList (map py_norm l)
  | PDict d => PDict (py_norm <$> d)
  | _ => v
  end.

(** [a == b] and [a != b]. *)
Definition py_eq (a b : pyval) : bool := bool_decide (py_norm a = py_norm b).
Definition py_ne (a b : pyval) : bool := negb (py_eq a b).

(** Truth value testing, as used by [not x] and [if x]. *)
Definition py_truthy (v : pyval) : bool :=
  match v with
  | PNone => false
  | PBool b => b
  | PInt z => negb (z =? 0)%Z
  | PStr s => negb (String.eqb s "")
  | PList l => match l with [] => false | _ => true end
  | PDict d => negb (bool_decide (d = ∅))
  end.

(** [s.endswith(suffix)]: some tail of [s] is [suffix]. *)
Fixpoint endswith (s suffix : string) : bool :=
  String.eqb s suffix ||
  match s with
  | EmptyString => false
  | String _ s' => endswith s' suffix
  end.

(** [needle in haystack] on strings: [needle] is a prefix of some tail. *)
Fixpoint str_in (needle haystack : string) : bool :=
  String.prefix needle haystack ||
  match haystack with
  | EmptyString => false
  | String _ h' => str_in needle h'
  end.

(** The one-character strings a [str] yields when iterated. *)
Fixpoint chars (s : string) : list pyval :=
  match s with
  | EmptyString => []
  | String c s' => PStr (String c EmptyString) :: chars s'
  end.

End Py.
Export Py.

(** ** Exceptions and results *)

(** Status codes of [starlette.status]. *)
Definition HTTP_400_BAD_REQUEST : Z := 400.
Definition HTTP_403_FORBIDDEN : Z := 403.
Definition HTTP_404_NOT_FOUND : Z := 404.
Definition HTTP_503_SERVICE_UNAVAILABLE : Z := 503.

(** The exception classes [ckan.call_action] raises: the [requests]
    family below [RequestException], the [ckanapi] family below
    [CKANAPIError], and [ckanapi]'s [ServerIncompatibleError], which
    derives from [Exception] directly and belongs to neither family. *)
Inductive exc_class : Set :=
  | RequestException | ConnectionError | Timeout
  | CKANAPIError | NotAuthorized | ValidationError | NotFound
  | SearchQueryError | SearchError | SearchIndexError
  | ServerIncompatibleError.

#[global] Instance exc_class_eq_dec : EqDecision exc_class.
Proof. solve_decision. Defined.

Definition base_class (c : exc_class) : option exc_class :=
  match c with
  | RequestException | CKANAPIError | ServerIncompatibleError => None
  | ConnectionError | Timeout => Some RequestException
  | NotAuthorized | ValidationError | NotFound | SearchQueryError
  | SearchError | SearchIndexError => Some CKANAPIError
  end.

(** [isinstance(e, target)] for an exception [e] of class [c]: what an
    [except target] clause tests. *)
Definition isinstance (c target : exc_class) : bool :=
  bool_decide (c = target) ||
  match base_class c with
  | Some b => bool_decide (b = target)
  | None => false
  end.

(** What one remote action call does: it returns the action's result or
    raises an exception [e] of class [cls] with [str(e) = msg]. *)
Inductive ckan_outcome : Type :=
  | Returns (result : pyval)
  | Raises (cls : exc_class) (msg : string).

(** Exceptions that travel through the adapter.  [HTTPException] is the
    classified error of the API; the others are the interpreter's own,
    raised on a response of unexpected shape; [Unhandled] is an exception
    of [call_action] that no [except] clause of [_call_ckan] matched;
    [Unmodelled] ends a run that the embedding does not follow. *)
Inductive exn : Type :=
  | HTTPException (status_code : Z) (detail : string)
  | KeyError (key : string)
  | TypeError
  | ValueError
  | AttributeError
  | Unhandled (cls : exc_class) (msg : string)
  | Unmodelled.

Inductive outcome (A : Type) : Type :=
  | Ret (a : A)
  | Exc (e : exn).
Arguments Ret {A} a.
Arguments Exc {A} e.

#[global] Instance outcome_ret : MRet outcome := @Ret.
#[global] Instance outcome_bind : MBind outcome := λ A B f m,
  match m with
  | Ret a => f a
  | Exc e => Exc e
  end.

(** [v[key]] with a [str] key. *)
Definition py_getitem (v : pyval) (key : string) : outcome pyval :=
  match v with
  | PDict d =>
      match d !! key with
      | Some x => Ret x
      | None => Exc (KeyError key)
      end
  | _ => Exc TypeError
  end.

(** [iter(v)]: the items a [for] loop or a comprehension visits.  A dict
    yields its keys. *)
Definition py_iter (v : pyval) : outcome (list pyval) :=
  match v with
  | PList l => Ret l
  | PStr s => Ret (chars s)
  | PDict d => Ret (PStr <$> (map_to_list d).*1)
  | _ => Exc TypeError
  end.

(** [d.update(other)] on a dict [d] built by the adapter.  A mapping
    overwrites key by key.  [other] may also be an iterable of key/value
    pairs: an empty one changes nothing and a non-empty [str] raises
    [ValueError]; a non-empty list of pairs, whose keys need not be
    strings, is not followed. *)
Definition dict_update (d : gmap string pyval) (other : pyval)
  : outcome (gmap string pyval) :=
  match other with
  | PDict o => Ret (o ∪ d)
  | PList [] => Ret d
  | PStr s => if String.eqb s "" then Ret d else Exc ValueError
  | PList _ => Exc Unmodelled
  | _ => Exc TypeError
  end.

(** [v.update(new)] where [v] is whatever the server returned. *)
Definition py_update (v : pyval) (new : gmap string pyval) : outcome pyval :=
  match v with
  | PDict d => Ret (PDict (new ∪ d))
  | _ => Exc AttributeError
  end.

(** ** The domain model of [odp.api.models] *)

Module Pagination.
(** Modelled from the spec: [odp.api.models.Pagination], a page request
    with an offset and a limit. *)
Record t := mk { offset : pyval; limit : pyval }.
End Pagination.

Module MetadataRecordIn.
(** Modelled from the spec: [odp.api.models.metadata.MetadataRecordIn],
    the input counterpart of a metadata record with its three consent and
    provenance fields. *)
Record t := mk {
  collection_key : pyval;
  schema_key : pyval;
  metadata : pyval;
  doi : pyval;
  auto_assign_doi : pyval;
  terms_conditions_accepted : pyval;
  data_agreement_accepted : pyval;
  data_agreement_url : pyval;
  capture_method : pyval;
}.
End MetadataRecordIn.

Module MetadataRecord.
(** Modelled from the spec: [odp.api.models.metadata.MetadataRecord];
    an absent [pid] is [None]. *)
Record t := mk {
  institution_key : pyval;
  collection_key : pyval;
  schema_key : pyval;
  metadata : pyval;
  id : pyval;
  pid : pyval;
  doi : pyval;
  validated : pyval;
  errors : pyval;
  state : pyval;
}.
End MetadataRecord.

Module MetadataValidationResult.
(** Modelled from the spec: [MetadataValidationResult], a success flag and
    the mapping of errors. *)
Record t := mk { success : bool; errors : gmap string pyval }.
End MetadataValidationResult.

Module MetadataWorkflowResult.
(** Modelled from the spec: [MetadataWorkflowResult], a success flag and
    the errors the transition action reported. *)
Record t := mk { success : bool; errors : pyval }.
End MetadataWorkflowResult.

Module CollectionIn.
(** Modelled from the spec: [odp.api.models.collection.CollectionIn]. *)
Record t := mk {
  key : pyval;
  name : pyval;
  description : pyval;
  doi_scope : pyval;
  project_keys : pyval;
}.
End CollectionIn.

Module Collection.
(** Modelled from the spec: [odp.api.models.collection.Collection]. *)
Record t := mk {
  institution_key : pyval;
  key : pyval;
  name : pyval;
  description : pyval;
  doi_scope : pyval;
  project_keys : list pyval;
}.
End Collection.

Module Project.
(** Modelled from the spec: [odp.api.models.project.Project]. *)
Record t := mk { key : pyval; name : pyval; description : pyval }.
End Project.

(** ** The world the adapter runs in *)

(** What lies outside the adapter: the CKAN server reached through
    [ckanapi.RemoteCKAN(url).call_action], an arbitrary state machine;
    [json.dumps]; and the two key suffixes of [odp.api.models]. *)
Class Environment := {
  backend_state : Type;
  call_action :
    string → string → gmap string pyval → string → bool →
    backend_state → ckan_outcome * backend_state;
  json_dumps : pyval → string;
  COLLECTION_SUFFIX : string;
  PROJECT_SUFFIX : string;
}.

(** One [call_action] invocation, as sent. *)
Record Call := mkCall {
  call_url : string;
  call_name : string;
  call_data_dict : gmap string pyval;
  call_apikey : string;
  call_verify : bool;
}.

#[global] Instance Call_eq_dec : EqDecision Call.
Proof. solve_decision. Defined.

(** A record handed to [logger]: its level and the pieces of its f-string,
    literal text or an interpolated value. *)
Inductive log_level : Set := WARNING | ERROR.

Record LogRecord := mkLog {
  log_level_of : log_level;
  log_message : list (string + pyval);
}.

(** References to the mutable model objects the caller passes in. *)
Definition loc := positive.

Record World `{Environment} := mkWorld {
  backend : backend_state;
  calls : list Call;
  log : list LogRecord;
  collections : gmap loc CollectionIn.t;
  projects : gmap loc Project.t;
}.
Arguments mkWorld {_} _ _ _ _ _.

(** The adapter instance: [self.ckan_server_url] and
    [self.app_config.SERVER_ENV]. *)
Record CKANAdapter := mkAdapter {
  ckan_server_url : string;
  SERVER_ENV : string;
}.

Section Adapter.
Context `{Env : Environment}.

(** Computations of the adapter: they read and change the world and end in
    a value or in a raised exception. *)
Definition M (A : Type) : Type := World → outcome A * World.

#[export] Instance M_ret : MRet M := λ A a w, (Ret a, w).
#[export] Instance M_bind : MBind M := λ A B f m w,
  match m w with
  | (Ret a, w') => f a w'
  | (Exc e, w') => (Exc e, w')
  end.

Definition lift {A} (o : outcome A) : M A := λ w, (o, w).
Definition raise {A} (e : exn) : M A := λ w, (Exc e, w).

(** [try: body  except HTTPException as e: handler(e)]. *)
Definition try_except {A} (body : M A) (handler : Z → string → M A) : M A :=
  λ w,
    match body w with
    | (Exc (HTTPException status_code detail), w') =>
        handler status_code detail w'
    | r => r
    end.

Definition logger (lvl : log_level) (msg : list (string + pyval)) : M unit :=
  λ w, (Ret tt,
        mkWorld (backend w) (calls w) (log w ++ [mkLog lvl msg])
                (collections w) (projects w)).

(** Reading and writing the object behind a reference.  A reference a
    caller holds always has its object; the other branch of a load is
    there to make it total. *)
Definition load_collection (l : loc) : M CollectionIn.t := λ w,
  match collections w !! l with
  | Some c => (Ret c, w)
  | None => (Exc AttributeError, w)
  end.

Definition store_collection (l : loc) (c : CollectionIn.t) : M unit := λ w,
  (Ret tt,
   mkWorld (backend w) (calls w) (log w) (<[l := c]> (collections w))
           (projects w)).

Definition load_project (l : loc) : M Project.t := λ w,
  match projects w !! l with
  | Some p => (Ret p, w)
  | None => (Exc AttributeError, w)
  end.

Definition store_project (l : loc) (p : Project.t) : M unit := λ w,
  (Ret tt,
   mkWorld (backend w) (calls w) (log w) (collections w)
           (<[l := p]> (projects w))).

(** *** [_call_ckan] *)

Definition _call_ckan (self : CKANAdapter) (action : string)
    (access_token : string) (kwargs : gmap string pyval) : M pyval :=
  λ w,
    let apikey := "Bearer " ++ access_token in
    let verify := negb (String.eqb (SERVER_ENV self) "development") in
    let '(out, b') :=
      call_action (ckan_server_url self) action kwargs apikey verify
                  (backend w) in
    let w' :=
      mkWorld b'
        (calls w ++ [mkCall (ckan_server_url self) action kwargs apikey verify])
        (log w) (collections w) (projects w) in
    match out with
    | Returns result => (Ret result, w')
    | Raises cls e =>
        if isinstance cls RequestException then
          (Exc (HTTPException HTTP_503_SERVICE_UNAVAILABLE
                  ("Error sending request to CKAN: " ++ e)), w')
        else if isinstance cls ValidationError then
          (Exc (HTTPException HTTP_400_BAD_REQUEST
                  ("CKAN validation error: " ++ e)), w')
        else if isinstance cls NotAuthorized then
          (Exc (HTTPException HTTP_403_FORBIDDEN
                  ("Not authorized to access CKAN resource: " ++ e)), w')
        else if isinstance cls NotFound then
          (Exc (HTTPException HTTP_404_NOT_FOUND
                  ("CKAN resource not found: " ++ e)), w')
        else if isinstance cls CKANAPIError then
          (Exc (HTTPException HTTP_400_BAD_REQUEST
                  ("CKAN error: " ++ e)), w')
        else (Exc (Unhandled cls e), w')
    end.

(** *** Metadata records *)

Definition _translate_from_ckan_record (ckan_record : pyval)
  : outcome MetadataRecord.t :=
  institution_key ← py_getitem ckan_record "owner_org";
  collection_key ← py_getitem ckan_record "metadata_collection_id";
  schema_key ← py_getitem ckan_record "metadata_standard_id";
  metadata ← py_getitem ckan_record "metadata_json";
  id ← py_getitem ckan_record "id";
  name ← py_getitem ckan_record "name";
  id' ← py_getitem ckan_record "id";
  pid ← (if py_ne name id' then py_getitem ckan_record "name"
         else Ret PNone);
  doi ← py_getitem ckan_record "doi";
  validated ← py_getitem ckan_record "validated";
  errors ← py_getitem ckan_record "errors";
  state ← py_getitem ckan_record "workflow_state_id";
  Ret (MetadataRecord.mk institution_key collection_key schema_key metadata
         id pid doi validated errors state).

Definition _translate_to_ckan_record (institution_key : pyval)
    (metadata_record : MetadataRecordIn.t) : gmap string pyval :=
  {[ "owner_org" := institution_key;
     "metadata_collection_id" := MetadataRecordIn.collection_key metadata_record;
     "metadata_standard_id" := MetadataRecordIn.schema_key metadata_record;
     "metadata_json" := PStr (json_dumps (MetadataRecordIn.metadata metadata_record));
     "doi" := MetadataRecordIn.doi metadata_record;
     "auto_assign_doi" := MetadataRecordIn.auto_assign_doi metadata_record ]}.

(** A list comprehension [[f(x) for x in items]]. *)
Fixpoint comprehension {A} (f : pyval → outcome A) (items : list pyval)
  : outcome (list A) :=
  match items with
  | [] => Ret []
  | x :: rest =>
      y ← f x;
      ys ← comprehension f rest;
      Ret (y :: ys)
  end.

Definition list_metadata_records (self : CKANAdapter) (institution_key : pyval)
    (pagination : Pagination.t) (access_token : string)
  : M (list MetadataRecord.t) :=
  ckan_record_list ← _call_ckan self "metadata_record_list" access_token
    {[ "owner_org" := institution_key;
       "offset" := Pagination.offset pagination;
       "limit" := Pagination.limit pagination;
       "all_fields" := PBool true;
       "deserialize_json" := PBool true ]};
  lift (records ← py_iter ckan_record_list;
        comprehension _translate_from_ckan_record records).

Definition get_metadata_record (self : CKANAdapter) (institution_key : pyval)
    (record_id : pyval) (access_token : string) : M MetadataRecord.t :=
  ckan_record ← _call_ckan self "metadata_record_show" access_token
    {[ "id" := record_id; "deserialize_json" := PBool true ]};
  state ← lift (py_getitem ckan_record "state");
  hidden ← (if py_ne state (PStr "active") then mret true
            else owner_org ← lift (py_getitem ckan_record "owner_org");
                 mret (py_ne owner_org institution_key));
  if hidden : bool then
    raise (HTTPException HTTP_404_NOT_FOUND "CKAN resource not found")
  else lift (_translate_from_ckan_record ckan_record).

(** The loop [for r in results: validation_errors.update(r['errors'])]. *)
Fixpoint merge_errors (validation_errors : gmap string pyval)
    (validation_results : list pyval) : outcome (gmap string pyval) :=
  match validation_results with
  | [] => Ret validation_errors
  | validation_result :: rest =>
      errors ← py_getitem validation_result "errors";
      validation_errors' ← dict_update validation_errors errors;
      merge_errors validation_errors' rest
  end.

Definition validate_metadata_record (self : CKANAdapter)
    (institution_key : pyval) (record_id : pyval) (access_token : string)
  : M MetadataValidationResult.t :=
  get_metadata_record self institution_key record_id access_token;;
  validation_activity_record ← _call_ckan self "metadata_record_validate"
    access_token {[ "id" := record_id ]};
  lift (data ← py_getitem validation_activity_record "data";
        results ← py_getitem data "results";
        validation_results ← py_iter results;
        validation_errors ← merge_errors ∅ validation_results;
        Ret (MetadataValidationResult.mk
               (negb (py_truthy (PDict validation_errors)))
               validation_errors)).

Definition change_state_of_metadata_record (self : CKANAdapter)
    (institution_key : pyval) (record_id : pyval) (state : pyval)
    (access_token : string) : M MetadataWorkflowResult.t :=
  get_metadata_record self institution_key record_id access_token;;
  workflow_activity_record ← _call_ckan self
    "metadata_record_workflow_state_transition" access_token
    {[ "id" := record_id; "workflow_state_id" := state ]};
  lift (data ← py_getitem workflow_activity_record "data";
        workflow_errors ← py_getitem data "errors";
        Ret (MetadataWorkflowResult.mk (negb (py_truthy workflow_errors))
               workflow_errors)).

Definition dquote : string := String "034"%char EmptyString.

(** The inner function [annotate] of [_annotate_metadata_record]. *)
Definition annotate (self : CKANAdapter) (record_id : pyval)
    (access_token : string) (key : string) (value : pyval) : M unit :=
  let kwargs : gmap string pyval :=
    {[ "id" := record_id; "key" := PStr key;
       "value" := PStr (json_dumps value) ]} in
  try_except
    (_call_ckan self "metadata_record_workflow_annotation_create"
       access_token kwargs;;
     mret tt)
    (λ status_code detail,
       err ← (if (status_code =? 400)%Z then
                try_except
                  (_call_ckan self "metadata_record_workflow_annotation_update"
                     access_token kwargs;;
                   mret PNone)
                  (λ _ detail', mret (PStr detail'))
              else mret (PStr detail));
       if py_truthy err then
         logger ERROR
           [inl ("Error setting " ++ dquote); inl key;
            inl (dquote ++ " annotation on metadata record "); inr record_id;
            inl ": "; inr err]
       else mret tt).

Definition _annotate_metadata_record (self : CKANAdapter) (record_id : pyval)
    (metadata_record : MetadataRecordIn.t) (access_token : string) : M unit :=
  annotate self record_id access_token "terms_and_conditions"
    (PDict {[ "accepted" :=
                MetadataRecordIn.terms_conditions_accepted metadata_record ]});;
  annotate self record_id access_token "data_agreement"
    (PDict {[ "accepted" :=
                MetadataRecordIn.data_agreement_accepted metadata_record;
              "href" := MetadataRecordIn.data_agreement_url metadata_record ]});;
  annotate self record_id access_token "capture_info"
    (PDict {[ "capture_method" :=
                MetadataRecordIn.capture_method metadata_record ]}).

Definition create_or_update_metadata_record (self : CKANAdapter)
    (institution_key : pyval) (metadata_record : MetadataRecordIn.t)
    (access_token : string) : M MetadataRecord.t :=
  let input_dict := _translate_to_ckan_record institution_key metadata_record in
  ckan_record ← _call_ckan self "metadata_record_create" access_token
    (<["deserialize_json" := PBool true]> input_dict);
  record_id ← lift (py_getitem ckan_record "id");
  _annotate_metadata_record self record_id metadata_record access_token;;
  validated ← lift (py_getitem ckan_record "validated");
  ckan_record' ←
    (if negb (py_truthy validated) then
       try_except
         (validaton_result ← validate_metadata_record self institution_key
                               record_id access_token;
          lift (py_update ckan_record
                  {[ "validated" := PBool true;
                     "errors" :=
                       PDict (MetadataValidationResult.errors
                                validaton_result) ]}))
         (λ _ detail,
            logger WARNING
              [inl "An error occurred while validating metadata record ";
               inr record_id; inl ": "; inl detail];;
            mret ckan_record)
     else mret ckan_record);
  lift (_translate_from_ckan_record ckan_record').

Definition update_metadata_record (self : CKANAdapter)
    (institution_key : pyval) (record_id : pyval)
    (metadata_record : MetadataRecordIn.t) (access_token : string)
  : M MetadataRecord.t :=
  get_metadata_record self institution_key record_id access_token;;
  let input_dict := _translate_to_ckan_record institution_key metadata_record in
  ckan_record ← _call_ckan self "metadata_record_update" access_token
    (<["id" := record_id]> (<["deserialize_json" := PBool true]> input_dict));
  _annotate_metadata_record self record_id metadata_record access_token;;
  validated ← lift (py_getitem ckan_record "validated");
  ckan_record' ←
    (if negb (py_truthy validated) then
       try_except
         (validaton_result ← validate_metadata_record self institution_key
                               record_id access_token;
          lift (py_update ckan_record
                  {[ "validated" := PBool true;
                     "errors" :=
                       PDict (MetadataValidationResult.errors
                                validaton_result) ]}))
         (λ _ detail,
            logger WARNING
              [inl "An error occurred while validating metadata record ";
               inr record_id; inl ": "; inl detail];;
            mret ckan_record)
     else mret ckan_record);
  lift (_translate_from_ckan_record ckan_record').

Definition delete_metadata_record (self : CKANAdapter)
    (institution_key : pyval) (record_id : pyval) (access_token : string)
  : M bool :=
  get_metadata_record self institution_key record_id access_token;;
  _call_ckan self "metadata_record_delete" access_token
    {[ "id" := record_id ]};;
  mret true.

(** *** Collections *)

Definition _translate_from_ckan_collection (ckan_collection : pyval)
  : outcome Collection.t :=
  institution_key ← py_getitem ckan_collection "organization_id";
  key ← py_getitem ckan_collection "name";
  name ← py_getitem ckan_collection "title";
  description ← py_getitem ckan_collection "description";
  doi_scope ← py_getitem ckan_collection "doi_collection";
  infrastructures ← py_getitem ckan_collection "infrastructures";
  project_dicts ← py_iter infrastructures;
  project_keys ← comprehension (λ project_dict, py_getitem project_dict "id")
                   project_dicts;
  Ret (Collection.mk institution_key key name description doi_scope
         project_keys).

Definition _translate_to_ckan_collection (institution_key : pyval)
    (collection : CollectionIn.t) : outcome (gmap string pyval) :=
  keys ← py_iter (CollectionIn.project_keys collection);
  Ret ({[ "name" := CollectionIn.key collection;
          "title" := CollectionIn.name collection;
          "description" := CollectionIn.description collection;
          "organization_id" := institution_key;
          "doi_collection" := CollectionIn.doi_scope collection;
          "infrastructures" :=
            PList ((λ key, PDict {[ "id" := key ]}) <$> keys) ]}
       : gmap string pyval).

Definition list_collections (self : CKANAdapter) (institution_key : pyval)
    (access_token : string) : M (list Collection.t) :=
  collection_list ← _call_ckan self "metadata_collection_list" access_token
    {[ "owner_org" := institution_key; "all_fields" := PBool true ]};
  lift (items ← py_iter collection_list;
        comprehension _translate_from_ckan_collection items).

(** [collection] is a reference: the [+=] on its key is seen by whoever
    else holds the object. *)
Definition create_collection (self : CKANAdapter) (institution_key : pyval)
    (collection : loc) (access_token : string) : M Collection.t :=
  c ← load_collection collection;
  match CollectionIn.key c with
  | PStr key =>
      if negb (endswith key COLLECTION_SUFFIX) then
        store_collection collection
          (CollectionIn.mk (PStr (key ++ COLLECTION_SUFFIX))
             (CollectionIn.name c) (CollectionIn.description c)
             (CollectionIn.doi_scope c) (CollectionIn.project_keys c))
      else mret tt
  | _ => raise AttributeError
  end;;
  c' ← load_collection collection;
  input_dict ← lift (_translate_to_ckan_collection institution_key c');
  ckan_collection ← _call_ckan self "metadata_collection_create" access_token
    input_dict;
  lift (_translate_from_ckan_collection ckan_collection).

(** *** Projects *)

Definition _translate_from_ckan_project (ckan_project : pyval)
  : outcome Project.t :=
  key ← py_getitem ckan_project "name";
  name ← py_getitem ckan_project "title";
  description ← py_getitem ckan_project "description";
  Ret (Project.mk key name description).

Definition _translate_to_ckan_project (project : Project.t)
  : gmap string pyval :=
  {[ "name" := Project.key project;
     "title" := Project.name project;
     "description" := Project.description project ]}.

Definition list_projects (self : CKANAdapter) (access_token : string)
  : M (list Project.t) :=
  project_list ← _call_ckan self "infrastructure_list" access_token
    {[ "all_fields" := PBool true ]};
  lift (items ← py_iter project_list;
        comprehension _translate_from_ckan_project items).

Definition create_or_update_project (self : CKANAdapter) (project : loc)
    (access_token : string) : M Project.t :=
  p ← load_project project;
  match Project.key p with
  | PStr key =>
      if negb (endswith key PROJECT_SUFFIX) then
        store_project project
          (Project.mk (PStr (key ++ PROJECT_SUFFIX)) (Project.name p)
             (Project.description p))
      else mret tt
  | _ => raise AttributeError
  end;;
  p' ← load_project project;
  let input_dict := _translate_to_ckan_project p' in
  ckan_project ←
    try_except
      (_call_ckan self "infrastructure_create" access_token input_dict)
      (λ status_code detail,
         if (status_code =? HTTP_400_BAD_REQUEST)%Z
            && str_in "Group name already exists in database" detail
         then
           name ← lift (py_getitem (PDict input_dict) "name");
           _call_ckan self "infrastructure_update" access_token
             (<["id" := name]> input_dict)
         else raise (HTTPException status_code detail));
  lift (_translate_from_ckan_project ckan_project).

End Adapter.

(** ** The vocabulary of the specification *)

(** The five kinds of failure of a remote action, with the status each is
    reported under and the text its detail starts with.  An exception of
    neither family is of none of these kinds. *)
Inductive failure : Set :=
  | Transport
  | BackendValidation
  | BackendAuthorization
  | BackendNotFound
  | OtherAPIError.

Definition failure_of (cls : exc_class) : option failure :=
  match cls with
  | RequestException | ConnectionError | Timeout => Some Transport
  | ValidationError => Some BackendValidation
  | NotAuthorized => Some BackendAuthorization
  | NotFound => Some BackendNotFound
  | CKANAPIError | SearchQueryError | SearchError | SearchIndexError =>
      Some OtherAPIError
  | ServerIncompatibleError => None
  end.

Definition status_of (f : failure) : Z :=
  match f with
  | Transport => 503
  | BackendValidation => 400
  | BackendAuthorization => 403
  | BackendNotFound => 404
  | OtherAPIError => 400
  end.

Definition detail_prefix (f : failure) : string :=
  match f with
  | Transport => "Error sending request to CKAN: "
  | BackendValidation => "CKAN validation error: "
  | BackendAuthorization => "Not authorized to access CKAN resource: "
  | BackendNotFound => "CKAN resource not found: "
  | OtherAPIError => "CKAN error: "
  end.

(** The classified result of one remote call; an exception of none of the
    five kinds is left as it is. *)
Definition classified (out : ckan_outcome) : outcome pyval :=
  match out with
  | Returns result => Ret result
  | Raises cls msg =>
      match failure_of cls with
      | Some f => Exc (HTTPException (status_of f) (detail_prefix f ++ msg))
      | None => Exc (Unhandled cls msg)
      end
  end.

(** Key normalisation: append the suffix only if the key does not already
    end with it. *)
Definition normalize (suffix key : string) : string :=
  if endswith key suffix then key else key ++ suffix.

(** The value the last fragment that mentions [k] gives it. *)
Fixpoint last_write_wins (fragments : list (gmap string pyval)) (k : string)
  : option pyval :=
  match fragments with
  | [] => None
  | f :: rest =>
      match last_write_wins rest k with
      | Some v => Some v
      | None => f !! k
      end
  end.

(** The error mapping a result fragment carries; an empty sequence counts
    as the empty mapping. *)
Definition error_mapping (errors : pyval) : option (gmap string pyval) :=
  match errors with
  | PDict o => Some o
  | PList [] => Some ∅
  | PStr EmptyString => Some ∅
  | _ => None
  end.

(** [fragment] is the error mapping of the result fragment [item]. *)
Definition fragment_of (item : pyval) (fragment : gmap string pyval) : Prop :=
  ∃ errors,
    py_getitem item "errors" = Ret errors ∧
    error_mapping errors = Some fragment.

(** The fragments merged in order, a later one overwriting an earlier. *)
Definition merged (fragments : list (gmap string pyval))
  : gmap string pyval :=
  foldl (λ acc f, f ∪ acc) ∅ fragments.

Section Specification.
Context `{Env : Environment}.

(** The call [_call_ckan] sends for an action. *)
Definition sent (self : CKANAdapter) (action : string) (access_token : string)
    (kwargs : gmap string pyval) : Call :=
  mkCall (ckan_server_url self) action kwargs ("Bearer " ++ access_token)
    (negb (String.eqb (SERVER_ENV self) "development")).

(** The call of the scoped existence check. *)
Definition show_call (self : CKANAdapter) (record_id : pyval)
    (access_token : string) : Call :=
  sent self "metadata_record_show" access_token
    {[ "id" := record_id; "deserialize_json" := PBool true ]}.

(** The world after one more log record. *)
Definition logged (r : LogRecord) (w : World) : World :=
  mkWorld (backend w) (calls w) (log w ++ [r]) (collections w) (projects w).

Definition annotation_kwargs (record_id : pyval) (key : string)
    (value : pyval) : gmap string pyval :=
  {[ "id" := record_id; "key" := PStr key;
     "value" := PStr (json_dumps value) ]}.

Definition annotation_error (record_id : pyval) (key : string)
    (detail : string) : LogRecord :=
  mkLog ERROR
    [inl ("Error setting " ++ dquote); inl key;
     inl (dquote ++ " annotation on metadata record "); inr record_id;
     inl ": "; inr (PStr detail)].

(** One annotation, as the specification tells it: create; on a 400 update
    with the same arguments; log whatever error is left. *)
Inductive annotation_step (self : CKANAdapter) (record_id : pyval)
    (access_token : string) (key : string) (value : pyval)
  : World → World → Prop :=
  | annotation_created w w' result :
      _call_ckan self "metadata_record_workflow_annotation_create"
        access_token (annotation_kwargs record_id key value) w
        = (Ret result, w') →
      annotation_step self record_id access_token key value w w'
  | annotation_updated w w1 w' detail result :
      _call_ckan self "metadata_record_workflow_annotation_create"
        access_token (annotation_kwargs record_id key value) w
        = (Exc (HTTPException 400 detail), w1) →
      _call_ckan self "metadata_record_workflow_annotation_update"
        access_token (annotation_kwargs record_id key value) w1
        = (Ret result, w') →
      annotation_step self record_id access_token key value w w'
  | annotation_update_failed w w1 w2 detail status_code' detail' :
      _call_ckan self "metadata_record_workflow_annotation_create"
        access_token (annotation_kwargs record_id key value) w
        = (Exc (HTTPException 400 detail), w1) →
      _call_ckan self "metadata_record_workflow_annotation_update"
        access_token (annotation_kwargs record_id key value) w1
        = (Exc (HTTPException status_code' detail'), w2) →
      annotation_step self record_id access_token key value w
        (logged (annotation_error record_id key detail') w2)
  | annotation_create_failed w w1 status_code detail :
      _call_ckan self "metadata_record_workflow_annotation_create"
        access_token (annotation_kwargs record_id key value) w
        = (Exc (HTTPException status_code detail), w1) →
      status_code ≠ 400%Z →
      annotation_step self record_id access_token key value w
        (logged (annotation_error record_id key detail) w1).




(** What create and update of a record do once the annotations are set:
    validate for convenience, then translate. *)
Definition convenience_validation (self : CKANAdapter)
    (institution_key record_id : pyval) (access_token : string)
    (ckan_record : pyval) : M MetadataRecord.t :=
  validated ← lift (py_getitem ckan_record "validated");
  ckan_record' ←
    (if negb (py_truthy validated) then
       try_except
         (validaton_result ← validate_metadata_record self institution_key
                               record_id access_token;
          lift (py_update ckan_record
                  {[ "validated" := PBool true;
                     "errors" :=
                       PDict (MetadataValidationResult.errors
                                validaton_result) ]}))
         (λ _ detail,
            logger WARNING
              [inl "An error occurred while validating metadata record ";
               inr record_id; inl ": "; inl detail];;
            mret ckan_record)
     else mret ckan_record);
  lift (_translate_from_ckan_record ckan_record').

(** The arguments of the primary create and update calls of a record. *)
Definition create_kwargs (institution_key : pyval)
    (metadata_record : MetadataRecordIn.t) : gmap string pyval :=
  <["deserialize_json" := PBool true]>
    (_translate_to_ckan_record institution_key metadata_record).

Definition update_kwargs (institution_key record_id : pyval)
    (metadata_record : MetadataRecordIn.t) : gmap string pyval :=
  <["id" := record_id]> (create_kwargs institution_key metadata_record).



(** One annotation cut short by an exception that is not an
    [HTTPException]: the create raises it, or the create fails with a 400
    and the update raises it.  Neither [except] clause of [annotate]
    catches it and nothing is logged. *)
Inductive annotation_interrupted (self : CKANAdapter) (record_id : pyval)
    (access_token : string) (key : string) (value : pyval)
  : World → exc_class → string → World → Prop :=
  | annotation_create_interrupted w w' cls msg :
      _call_ckan self "metadata_record_workflow_annotation_create"
        access_token (annotation_kwargs record_id key value) w
        = (Exc (Unhandled cls msg), w') →
      annotation_interrupted self record_id access_token key value w cls msg w'
  | annotation_update_interrupted w w1 w' detail cls msg :
      _call_ckan self "metadata_record_workflow_annotation_create"
        access_token (annotation_kwargs record_id key value) w
        = (Exc (HTTPException 400 detail), w1) →
      _call_ckan self "metadata_record_workflow_annotation_update"
        access_token (annotation_kwargs record_id key value) w1
        = (Exc (Unhandled cls msg), w') →
      annotation_interrupted self record_id access_token key value w cls msg w'.


(** A collection or project object whose key has been normalised. *)
Definition collection_with_key (key : string) (c : CollectionIn.t)
  : CollectionIn.t :=
  CollectionIn.mk (PStr key) (CollectionIn.name c)
    (CollectionIn.description c) (CollectionIn.doi_scope c)
    (CollectionIn.project_keys c).

Definition project_with_key (key : string) (p : Project.t) : Project.t :=
  Project.mk (PStr key) (Project.name p) (Project.description p).

Definition project_kwargs (key : string) (p : Project.t)
  : gmap string pyval :=
  {[ "name" := PStr key; "title" := Project.name p;
     "description" := Project.description p ]}.

Definition collection_kwargs (institution_key : pyval) (key : string)
    (c : CollectionIn.t) (project_keys : list pyval) : gmap string pyval :=
  {[ "name" := PStr key;
     "title" := CollectionIn.name c;
     "description" := CollectionIn.description c;
     "organization_id" := institution_key;
     "doi_collection" := CollectionIn.doi_scope c;
     "infrastructures" :=
       PList ((λ key, PDict {[ "id" := key ]}) <$> project_keys) ]}.

(** A computation only ever adds to the trace of calls and to the log. *)
Definition grows {A} (m : M A) : Prop :=
  ∀ w, (∃ t, calls (m w).2 = (calls w ++ t)%list)
       ∧ (∃ l, log (m w).2 = (log w ++ l)%list).

(** A computation that leaves the caller's objects alone. *)
Definition keeps_objects {A} (m : M A) : Prop :=
  ∀ w, collections (m w).2 = collections w ∧ projects (m w).2 = projects w.

(** The world after the object at [l] has been replaced. *)
Definition collections_updated (l : loc) (c : CollectionIn.t) (w : World)
  : World :=
  mkWorld (backend w) (calls w) (log w) (<[l := c]> (collections w))
    (projects w).

Definition projects_updated (l : loc) (p : Project.t) (w : World) : World :=
  mkWorld (backend w) (calls w) (log w) (collections w)
    (<[l := p]> (projects w)).

End Specification.

(** ** Vocabulary of the further properties *)

(** The keys [_translate_from_ckan_record] reads, in the order in which it
    first reads them. *)
Definition record_keys : list string :=
  [ "owner_org"; "metadata_collection_id"; "metadata_standard_id";
    "metadata_json"; "id"; "name"; "doi"; "validated"; "errors";
    "workflow_state_id" ].

Definition project_keys_read : list string :=
  [ "name"; "title"; "description" ].

(** [key] is not in the dict [d]. *)
Definition lacks (d : gmap string pyval) (key : string) : bool :=
  match d !! key with
  | Some _ => false
  | None => true
  end.

(** The statuses the adapter reports a failed remote call under. *)
Definition reported_statuses : list Z := [400; 403; 404; 503]%Z.

Section Invariants.
Context `{Env : Environment}.

(** A computation all of whose runs take a world to one related to it. *)
Definition within (R : relation World) {A} (m : M A) : Prop :=
  ∀ w, R w (m w).2.

(** [w'] is [w] after some calls, each of them sent to the adapter's
    server with the caller's token as bearer credential and with the
    certificate check the adapter is configured for. *)
Definition forwarded (self : CKANAdapter) (access_token : string)
  : relation World :=
  λ w w', ∃ t,
    calls w' = (calls w ++ t)%list ∧
    Forall (λ c, c = sent self (call_name c) access_token (call_data_dict c))
      t.

(** Nothing has been logged between [w] and [w']. *)
Definition same_log : relation World := λ w w', log w' = log w.

(** The two actions that set an annotation. *)
Definition annotation_call (record_id : pyval) (c : Call) : Prop :=
  (call_name c = "metadata_record_workflow_annotation_create"
   ∨ call_name c = "metadata_record_workflow_annotation_update")
  ∧ call_data_dict c !! "id" = Some record_id.

End Invariants.

(** ** A scripted server, for running the adapter on concrete inputs *)

Module Sample.

Definition join (sep : string) (parts : list string) : string :=
  match parts with
  | [] => ""
  | p :: rest => p ++ fold_right (λ q acc, sep ++ q ++ acc) "" rest
  end.

Definition decimal (z : Z) : string :=
  match z with
  | Z0 => "0"
  | Zpos p => pretty (Npos p)
  | Zneg p => "-" ++ pretty (Npos p)
  end.

(** A plain JSON printer (no escaping), standing in for [json.dumps]. *)
Fixpoint dumps (v : pyval) : string :=
  match v with
  | PNone => "null"
  | PBool b => if b then "true" else "false"
  | PInt z => decimal z
  | PStr s => dquote ++ s ++ dquote
  | PList l => "[" ++ join ", " (map dumps l) ++ "]"
  | PDict d =>
      "{" ++ join ", "
               ((λ kv : string * string,
                   dquote ++ kv.1 ++ dquote ++ ": " ++ kv.2)
                  <$> map_to_list (dumps <$> d)) ++ "}"
  end.

(** The server answers from a script, one entry per call; when the script
    is exhausted the connection fails. *)
#[export] Instance env : Environment := {|
  backend_state := list ckan_outcome;
  call_action := λ _ _ _ _ _ script,
    match script with
    | [] => (Raises ConnectionError "connection refused", [])
    | answer :: rest => (answer, rest)
    end;
  json_dumps := dumps;
  COLLECTION_SUFFIX := "-collection";
  PROJECT_SUFFIX := "-project";
|}.

Definition adapter : CKANAdapter := mkAdapter "https://ckan.example" "production".

Definition world (script : list ckan_outcome) : World :=
  mkWorld script [] [] ∅ ∅.

Definition record_in : MetadataRecordIn.t :=
  MetadataRecordIn.mk (PStr "coll-1") (PStr "datacite") (PDict {[ "title" := PStr "t" ]})
    PNone (PBool false) (PBool true) (PBool true) (PStr "https://agreement.example")
    (PStr "wizard").

(** A backend record of institution [owner]. *)
Definition ckan_record (owner : string) (name : string) (validated : bool)
  : gmap string pyval :=
  {[ "owner_org" := PStr owner;
     "metadata_collection_id" := PStr "coll-1";
     "metadata_standard_id" := PStr "datacite";
     "metadata_json" := PDict {[ "title" := PStr "t" ]};
     "id" := PStr "rec-1";
     "name" := PStr name;
     "doi" := PNone;
     "validated" := PBool validated;
     "errors" := PDict ∅;
     "workflow_state_id" := PStr "draft";
     "state" := PStr "active" ]}.

(** A validation activity record with two result fragments that both
    report on the key [title]. *)
Definition validation_activity : pyval :=
  PDict {[ "data" := PDict {[ "results" := PList
    [ PDict {[ "errors" := PDict {[ "title" := PStr "too short";
                                     "doi" := PStr "missing" ]} ]};
      PDict {[ "errors" := PDict {[ "title" := PStr "not unique" ]} ]} ] ]} ]}.

(** The record [ckan_record owner name validated] translates to. *)
Definition record_out (owner : string) (pid : pyval) (validated : bool)
  : MetadataRecord.t :=
  MetadataRecord.mk (PStr owner) (PStr "coll-1") (PStr "datacite")
    (PDict {[ "title" := PStr "t" ]}) (PStr "rec-1") pid PNone
    (PBool validated) (PDict ∅) (PStr "draft").

(** What [validation_activity] merges to: the later fragment wins on
    [title]. *)
Definition validation_result : MetadataValidationResult.t :=
  MetadataValidationResult.mk false
    {[ "title" := PStr "not unique"; "doi" := PStr "missing" ]}.

Definition collection_in : CollectionIn.t :=
  CollectionIn.mk (PStr "marine") (PStr "Marine data") (PStr "All of it")
    PNone (PList [PStr "saeon-project"]).

Definition project_in : Project.t :=
  Project.mk (PStr "saeon") (PStr "SAEON") (PStr "Observation network").

Definition ckan_project : pyval :=
  PDict {[ "name" := PStr "saeon-project"; "title" := PStr "SAEON";
           "description" := PStr "Observation network" ]}.

(** A world in which the caller holds a collection and a project object,
    both at reference 1. *)
Definition world_with_objects (script : list ckan_outcome) : World :=
  mkWorld script [] [] {[ 1%positive := collection_in ]}
    {[ 1%positive := project_in ]}.

(** What CKAN answers when the group name is taken. *)
Definition name_taken : ckan_outcome :=
  Raises ValidationError
    "{'name': ['Group name already exists in database']}".

(** What [call_action] raises when the answer of the server is not one of
    the CKAN API: an exception of neither family. *)
Definition incompatible : ckan_outcome :=
  Raises ServerIncompatibleError "unexpected response".

(** A record of another institution that has been deleted. *)
Definition deleted_record : gmap string pyval :=
  <["state" := PStr "deleted"]> (ckan_record "inst-b" "rec-2" true).

(** A project dict as CKAN returns it, with a key the adapter ignores. *)
Definition ckan_group : gmap string pyval :=
  {[ "id" := PStr "0a1b"; "name" := PStr "saeon-project";
     "title" := PStr "SAEON"; "description" := PStr "Observation network" ]}.

(** A workflow activity record that reports no errors. *)
Definition workflow_activity : pyval :=
  PDict {[ "data" := PDict {[ "errors" := PDict ∅ ]} ]}.

(** A collection whose project keys were never set. *)
Definition collection_without_projects : CollectionIn.t :=
  CollectionIn.mk (PStr "marine") (PStr "Marine data") (PStr "All of it")
    PNone PNone.

End Sample.

(** * Properties *)

(** ** Strings *)

Lemma endswith_append (s suffix : string) :
  endswith (s ++ suffix) suffix = true.
Proof.
  induction s as [| c s IH]; simpl.
  - destruct suffix; simpl; [done |].
    by rewrite Ascii.eqb_refl, String.eqb_refl.
  - rewrite IH. apply orb_true_r.
Qed.

Lemma endswith_normalize (suffix key : string) :
  endswith (normalize suffix key) suffix = true.
Proof.
  unfold normalize. destruct (endswith key suffix) eqn:E; [done |].
  apply endswith_append.
Qed.

Lemma normalize_idempotent (suffix key : string) :
  normalize suffix (normalize suffix key) = normalize suffix key.
Proof.
  unfold normalize at 1. by rewrite endswith_normalize.
Qed.

(** ** The action invoker *)

Section Invoker.
Context `{Env : Environment}.

Lemma excepts_follow_taxonomy (cls : exc_class) (msg : string) :
  (if isinstance cls RequestException then
     Exc (HTTPException HTTP_503_SERVICE_UNAVAILABLE
            ("Error sending request to CKAN: " ++ msg))
   else if isinstance cls ValidationError then
     Exc (HTTPException HTTP_400_BAD_REQUEST ("CKAN validation error: " ++ msg))
   else if isinstance cls NotAuthorized then
     Exc (HTTPException HTTP_403_FORBIDDEN
            ("Not authorized to access CKAN resource: " ++ msg))
   else if isinstance cls NotFound then
     Exc (HTTPException HTTP_404_NOT_FOUND ("CKAN resource not found: " ++ msg))
   else if isinstance cls CKANAPIError then
     Exc (HTTPException HTTP_400_BAD_REQUEST ("CKAN error: " ++ msg))
   else Exc (Unhandled cls msg))
  = classified (Raises cls msg).
Proof. by destruct cls. Qed.

Lemma _call_ckan_run (self : CKANAdapter) (action access_token : string)
    (kwargs : gmap string pyval) (w : World) :
  _call_ckan self action access_token kwargs w =
  let r := call_action (ckan_server_url self) action kwargs
             ("Bearer " ++ access_token)
             (negb (String.eqb (SERVER_ENV self) "development")) (backend w) in
  (classified r.1,
   mkWorld r.2 (calls w ++ [sent self action access_token kwargs]) (log w)
     (collections w) (projects w)).
Proof.
  unfold _call_ckan, sent. simpl.
  destruct (call_action _ _ _ _ _ _) as [[result | cls msg] b']; simpl.
  - done.
  - pose proof (excepts_follow_taxonomy cls msg) as H. simpl in H.
    destruct cls; simpl in *; done.
Qed.

End Invoker.

(** ** The record translator *)


Lemma translate_record_fields (v : pyval) (rec : MetadataRecord.t) :
  _translate_from_ckan_record v = Ret rec →
  ∃ name,
    py_getitem v "owner_org" = Ret (MetadataRecord.institution_key rec) ∧
    py_getitem v "metadata_collection_id" = Ret (MetadataRecord.collection_key rec) ∧
    py_getitem v "metadata_standard_id" = Ret (MetadataRecord.schema_key rec) ∧
    py_getitem v "metadata_json" = Ret (MetadataRecord.metadata rec) ∧
    py_getitem v "id" = Ret (MetadataRecord.id rec) ∧
    py_getitem v "name" = Ret name ∧
    MetadataRecord.pid rec
      = (if py_ne name (MetadataRecord.id rec) then name else PNone) ∧
    py_getitem v "doi" = Ret (MetadataRecord.doi rec) ∧
    py_getitem v "validated" = Ret (MetadataRecord.validated rec) ∧
    py_getitem v "errors" = Ret (MetadataRecord.errors rec) ∧
    py_getitem v "workflow_state_id" = Ret (MetadataRecord.state rec).
Proof.
  intros H. unfold _translate_from_ckan_record in H.
  repeat (match type of H with
          | context [py_getitem v ?k] =>
              let E := fresh "E" in
              destruct (py_getitem v k) eqn:E; simpl in H; try discriminate
          end).
  all: simpl in H; try discriminate.
  all: match type of H with
       | context [py_ne ?a ?b] => destruct (py_ne a b) eqn:Hne
       end; simpl in H; try discriminate.
  all: injection H as <-; simpl; eexists;
    repeat split; try reflexivity; simpl; by rewrite Hne.
Qed.



(** ** Running computations *)

#[local] Open Scope list_scope.

Section Running.
Context `{Env : Environment}.

Lemma run_bind {A B} (m : M A) (f : A → M B) (w : World) :
  (m ≫= f) w =
  match m w with
  | (Ret a, w') => f a w'
  | (Exc e, w') => (Exc e, w')
  end.
Proof. reflexivity. Qed.

Lemma run_bind_ret {A B} (m : M A) (f : A → M B) (w w' : World) (a : A) :
  m w = (Ret a, w') → (m ≫= f) w = f a w'.
Proof. intros H. by rewrite run_bind, H. Qed.

Lemma run_bind_exc {A B} (m : M A) (f : A → M B) (w w' : World) (e : exn) :
  m w = (Exc e, w') → (m ≫= f) w = (Exc e, w').
Proof. intros H. by rewrite run_bind, H. Qed.

Lemma grows_ret {A} (a : A) : grows (mret a : M A).
Proof. intros w. split; exists []; simpl; by rewrite app_nil_r. Qed.

Lemma grows_lift {A} (o : outcome A) : grows (lift o).
Proof. intros w. split; exists []; simpl; by rewrite app_nil_r. Qed.

Lemma grows_raise {A} (e : exn) : grows (raise e : M A).
Proof. intros w. split; exists []; simpl; by rewrite app_nil_r. Qed.

Lemma grows_logger lvl msg : grows (logger lvl msg).
Proof.
  intros w. split; simpl; [exists []; by rewrite app_nil_r | by eexists].
Qed.

Lemma grows_store_collection l c : grows (store_collection l c).
Proof. intros w. split; exists []; simpl; by rewrite app_nil_r. Qed.

Lemma grows_store_project l p : grows (store_project l p).
Proof. intros w. split; exists []; simpl; by rewrite app_nil_r. Qed.

Lemma grows_load_collection l : grows (load_collection l).
Proof.
  intros w. unfold load_collection.
  destruct (collections w !! l); split; exists []; simpl; by rewrite app_nil_r.
Qed.

Lemma grows_load_project l : grows (load_project l).
Proof.
  intros w. unfold load_project.
  destruct (projects w !! l); split; exists []; simpl; by rewrite app_nil_r.
Qed.

Lemma grows_call_ckan self action access_token kwargs :
  grows (_call_ckan self action access_token kwargs).
Proof.
  intros w. rewrite _call_ckan_run. simpl.
  split; [by eexists | exists []; by rewrite app_nil_r].
Qed.

Lemma grows_bind {A B} (m : M A) (f : A → M B) :
  grows m → (∀ a, grows (f a)) → grows (m ≫= f).
Proof.
  intros Hm Hf w. rewrite run_bind.
  destruct (Hm w) as [[t Ht] [l Hl]].
  destruct (m w) as [[a | e] w'] eqn:E; simpl in *.
  - destruct (Hf a w') as [[t' Ht'] [l' Hl']].
    split; [exists (t ++ t') | exists (l ++ l')].
    + by rewrite Ht', Ht, app_assoc.
    + by rewrite Hl', Hl, app_assoc.
  - split; by eexists.
Qed.

Lemma grows_try {A} (m : M A) (h : Z → string → M A) :
  grows m → (∀ s d, grows (h s d)) → grows (try_except m h).
Proof.
  intros Hm Hh w. unfold try_except.
  destruct (Hm w) as [[t Ht] [l Hl]].
  destruct (m w) as [[a | []] w'] eqn:E; simpl in *; try (split; by eexists).
  destruct (Hh status_code detail w') as [[t' Ht'] [l' Hl']].
  split; [exists (t ++ t') | exists (l ++ l')].
  - by rewrite Ht', Ht, app_assoc.
  - by rewrite Hl', Hl, app_assoc.
Qed.

Lemma grows_if {A} (b : bool) (m1 m2 : M A) :
  grows m1 → grows m2 → grows (if b then m1 else m2).
Proof. by destruct b. Qed.

End Running.

Ltac solve_grows :=
  repeat first
    [ apply grows_ret | apply grows_lift | apply grows_raise
    | apply grows_logger | apply grows_store_collection
    | apply grows_store_project | apply grows_load_collection
    | apply grows_load_project | apply grows_call_ckan
    | apply grows_bind | apply grows_try | apply grows_if
    | intro ].

Section Growth.
Context `{Env : Environment}.

Lemma grows_get self institution_key record_id access_token :
  grows (get_metadata_record self institution_key record_id access_token).
Proof. unfold get_metadata_record. solve_grows. Qed.

Lemma grows_validate self institution_key record_id access_token :
  grows (validate_metadata_record self institution_key record_id access_token).
Proof.
  unfold validate_metadata_record.
  apply grows_bind; [apply grows_get | intros _]. solve_grows.
Qed.

Lemma grows_annotate self record_id access_token key value :
  grows (annotate self record_id access_token key value).
Proof. unfold annotate. solve_grows. Qed.

Lemma grows_annotate_record self record_id metadata_record access_token :
  grows (_annotate_metadata_record self record_id metadata_record access_token).
Proof.
  unfold _annotate_metadata_record.
  repeat (apply grows_bind; [apply grows_annotate | intros _]).
  apply grows_annotate.
Qed.

End Growth.

(** ** The error taxonomy *)

Section Taxonomy.
Context `{Env : Environment}.


End Taxonomy.

(** ** The scoped existence check *)

Section ExistenceCheck.
Context `{Env : Environment}.

Lemma get_world self institution_key record_id access_token w :
  (get_metadata_record self institution_key record_id access_token w).2
  = (_call_ckan self "metadata_record_show" access_token
       {[ "id" := record_id; "deserialize_json" := PBool true ]} w).2.
Proof.
  unfold get_metadata_record. rewrite run_bind.
  destruct (_call_ckan _ _ _ _ w) as [[v | e] w1]; [|done]. simpl.
  rewrite run_bind. unfold lift at 1.
  destruct (py_getitem v "state") as [st|]; [|done].
  rewrite run_bind.
  destruct (py_ne st (PStr "active")).
  - done.
  - rewrite run_bind. unfold lift at 1.
    destruct (py_getitem v "owner_org") as [o|]; [|done]. simpl.
    by destruct (py_ne o institution_key).
Qed.

Lemma get_calls self institution_key record_id access_token w :
  calls (get_metadata_record self institution_key record_id access_token w).2
  = calls w ++ [show_call self record_id access_token].
Proof. rewrite get_world, _call_ckan_run. done. Qed.

Lemma check_comes_first {A} (f : MetadataRecord.t → M A)
    self institution_key record_id access_token w :
  (∀ a, grows (f a)) →
  ∃ rest,
    calls ((get_metadata_record self institution_key record_id access_token
              ≫= f) w).2
    = calls w ++ show_call self record_id access_token :: rest.
Proof.
  intros Hf. rewrite run_bind.
  pose proof (get_calls self institution_key record_id access_token w) as Hc.
  destruct (get_metadata_record _ _ _ _ w) as [[a | e] w1]; simpl in *.
  - destruct (Hf a w1) as [[t Ht] _]. exists t.
    by rewrite Ht, Hc, <- app_assoc.
  - exists []. done.
Qed.

(** C4: update, delete, validate and the workflow transition all start
    with the scoped check, the show call of [get_metadata_record]; when the
    check fails the operation fails with the check's error and the show
    call is the only call that was made. *)
Theorem C4_failed_check_stops_the_operation (self : CKANAdapter)
    (institution_key record_id : pyval) (access_token : string) (w : World) :
  let check := show_call self record_id access_token in
  (∀ metadata_record, ∃ rest,
     calls (update_metadata_record self institution_key record_id
              metadata_record access_token w).2 = calls w ++ check :: rest) ∧
  (∃ rest,
     calls (delete_metadata_record self institution_key record_id
              access_token w).2 = calls w ++ check :: rest) ∧
  (∃ rest,
     calls (validate_metadata_record self institution_key record_id
              access_token w).2 = calls w ++ check :: rest) ∧
  (∀ state, ∃ rest,
     calls (change_state_of_metadata_record self institution_key record_id
              state access_token w).2 = calls w ++ check :: rest) ∧
  (∀ e w1,
     get_metadata_record self institution_key record_id access_token w
       = (Exc e, w1) →
     (∀ metadata_record,
        update_metadata_record self institution_key record_id metadata_record
          access_token w = (Exc e, w1)) ∧
     delete_metadata_record self institution_key record_id access_token w
       = (Exc e, w1) ∧
     validate_metadata_record self institution_key record_id access_token w
       = (Exc e, w1) ∧
     (∀ state,
        change_state_of_metadata_record self institution_key record_id state
          access_token w = (Exc e, w1)) ∧
     calls w1 = calls w ++ [check]).
Proof.
  intros check. subst check.
  split; [|split; [|split; [|split]]].
  - intros metadata_record. apply check_comes_first. intros _.
    solve_grows; first [apply grows_annotate_record | apply grows_validate].
  - apply check_comes_first. intros _. solve_grows.
  - apply check_comes_first. intros _. solve_grows.
  - intros state. apply check_comes_first. intros _. solve_grows.
  - intros e w1 Hget.
    repeat split; intros;
      try (unfold update_metadata_record, delete_metadata_record,
             validate_metadata_record, change_state_of_metadata_record;
           by apply run_bind_exc).
    pose proof (get_calls self institution_key record_id access_token w) as H.
    by rewrite Hget in H.
Qed.

End ExistenceCheck.

(** ** Visibility of records *)

Section Visibility.
Context `{Env : Environment}.

Lemma get_hidden self institution_key record_id access_token w w1 v st :
  _call_ckan self "metadata_record_show" access_token
    {[ "id" := record_id; "deserialize_json" := PBool true ]} w
    = (Ret v, w1) →
  py_getitem v "state" = Ret st →
  py_ne st (PStr "active") = true
  ∨ (∃ o, py_getitem v "owner_org" = Ret o ∧ py_ne o institution_key = true) →
  get_metadata_record self institution_key record_id access_token w
  = (Exc (HTTPException HTTP_404_NOT_FOUND "CKAN resource not found"), w1).
Proof.
  intros Hcall Hst Hhid. unfold get_metadata_record.
  rewrite (run_bind_ret _ _ _ _ _ Hcall).
  rewrite run_bind. unfold lift at 1. rewrite Hst.
  rewrite run_bind.
  destruct (py_ne st (PStr "active")) eqn:Hne; [done |].
  destruct Hhid as [? | (o & Ho & Hne')]; [done |].
  rewrite run_bind. unfold lift at 1. rewrite Ho. simpl. by rewrite Hne'.
Qed.

Lemma get_returns self institution_key record_id access_token w w' rec :
  get_metadata_record self institution_key record_id access_token w
    = (Ret rec, w') →
  ∃ v st o,
    _call_ckan self "metadata_record_show" access_token
      {[ "id" := record_id; "deserialize_json" := PBool true ]} w
      = (Ret v, w') ∧
    py_getitem v "state" = Ret st ∧ py_eq st (PStr "active") = true ∧
    py_getitem v "owner_org" = Ret o ∧ py_eq o institution_key = true ∧
    _translate_from_ckan_record v = Ret rec.
Proof.
  unfold get_metadata_record. rewrite run_bind.
  destruct (_call_ckan _ _ _ _ w) as [[v | e] w1]; [|done].
  rewrite run_bind. unfold lift at 1.
  destruct (py_getitem v "state") as [st|] eqn:Hst; [|done].
  rewrite run_bind. unfold py_ne.
  destruct (py_eq st (PStr "active")) eqn:Hact; [|done]. simpl.
  rewrite run_bind. unfold lift at 1.
  destruct (py_getitem v "owner_org") as [o|] eqn:Ho; [|done]. simpl.
  destruct (py_eq o institution_key) eqn:Hown; [|done]. simpl.
  unfold lift. intros [= Htr <-]. by exists v, st, o.
Qed.

Lemma get_absent self institution_key record_id access_token w e :
  (_call_ckan self "metadata_record_show" access_token
     {[ "id" := record_id; "deserialize_json" := PBool true ]} w).1 = Exc e →
  get_metadata_record self institution_key record_id access_token w
  = (Exc e,
     (_call_ckan self "metadata_record_show" access_token
        {[ "id" := record_id; "deserialize_json" := PBool true ]} w).2).
Proof.
  intros H. unfold get_metadata_record. rewrite run_bind.
  destruct (_call_ckan _ _ _ _ w) as [r w1]. simpl in H. by subst r.
Qed.

Lemma append_differs (s t : string) : t ≠ "" → s +:+ t ≠ s.
Proof.
  intros Ht. induction s as [| c s IH]; simpl; [done |].
  intros [= H]. by apply IH.
Qed.

(** C5, as the code has it: a record the backend returns that is not
    active or is owned by another institution is reported as 404 with the
    one fixed detail, whichever of the two reasons applies; only an active
    record of the given institution is returned; and a record the backend
    itself reports as not found is a 404 too, whose detail goes on with
    the backend's message and so differs from the fixed one. *)
Theorem C5_hidden_record_is_not_found (self : CKANAdapter)
    (institution_key record_id : pyval) (access_token : string)
    (w : World) :
  let shown :=
    _call_ckan self "metadata_record_show" access_token
      {[ "id" := record_id; "deserialize_json" := PBool true ]} w in
  let answer :=
    call_action (ckan_server_url self) "metadata_record_show"
      {[ "id" := record_id; "deserialize_json" := PBool true ]}
      ("Bearer " +:+ access_token)
      (negb (String.eqb (SERVER_ENV self) "development")) (backend w) in
  (∀ v st,
     shown.1 = Ret v →
     py_getitem v "state" = Ret st →
     py_ne st (PStr "active") = true
     ∨ (∃ o, py_getitem v "owner_org" = Ret o
             ∧ py_ne o institution_key = true) →
     get_metadata_record self institution_key record_id access_token w
     = (Exc (HTTPException 404 "CKAN resource not found"), shown.2)) ∧
  (∀ rec w',
     get_metadata_record self institution_key record_id access_token w
       = (Ret rec, w') →
     ∃ v st o,
       shown = (Ret v, w') ∧
       py_getitem v "state" = Ret st ∧ py_eq st (PStr "active") = true ∧
       py_getitem v "owner_org" = Ret o ∧ py_eq o institution_key = true ∧
       MetadataRecord.institution_key rec = o) ∧
  (∀ msg,
     answer.1 = Raises NotFound msg →
     get_metadata_record self institution_key record_id access_token w
     = (Exc (HTTPException 404 ("CKAN resource not found: " +:+ msg)),
        shown.2)
     ∧ "CKAN resource not found: " +:+ msg ≠ "CKAN resource not found").
Proof.
  intros shown answer. split; [|split].
  - intros v st Hv Hst Hhid.
    apply (get_hidden _ _ _ _ _ _ v st); [|done..].
    subst shown. destruct (_call_ckan _ _ _ _ w) as [r w1].
    simpl in *. by subst r.
  - intros rec w' Hget.
    destruct (get_returns _ _ _ _ _ _ _ Hget)
      as (v & st & o & Hcall & Hst & Hact & Ho & Hown & Htr).
    exists v, st, o. repeat split; try done.
    destruct (translate_record_fields _ _ Htr) as (_ & Hk & _).
    congruence.
  - intros msg Hanswer. split.
    + apply get_absent. rewrite _call_ckan_run. simpl.
      fold answer. by rewrite Hanswer.
    + apply (append_differs "CKAN resource not found" (": " +:+ msg)).
      done.
Qed.

End Visibility.

(** ** Merging validation results *)

Lemma merged_from_lookup (fragments : list (gmap string pyval))
    (acc : gmap string pyval) (k : string) :
  foldl (λ acc f, f ∪ acc) acc fragments !! k
  = match last_write_wins fragments k with
    | Some v => Some v
    | None => acc !! k
    end.
Proof.
  revert acc. induction fragments as [| f rest IH]; intros acc; simpl.
  - done.
  - rewrite IH. destruct (last_write_wins rest k); [done |].
    rewrite lookup_union. destruct (f !! k), (acc !! k); done.
Qed.

Lemma merged_lookup (fragments : list (gmap string pyval)) (k : string) :
  merged fragments !! k = last_write_wins fragments k.
Proof.
  unfold merged. rewrite merged_from_lookup.
  by destruct (last_write_wins fragments k).
Qed.

Lemma dict_update_mapping (d : gmap string pyval) (other : pyval)
    (d' : gmap string pyval) :
  dict_update d other = Ret d' →
  ∃ o, error_mapping other = Some o ∧ d' = o ∪ d.
Proof.
  destruct other as [| | |s|l|o]; simpl; try done.
  - destruct s; simpl; [|done]. intros [= <-]. exists ∅.
    by rewrite (left_id_L ∅ (∪)).
  - destruct l; [|done]. intros [= <-]. exists ∅.
    by rewrite (left_id_L ∅ (∪)).
  - intros [= <-]. by exists o.
Qed.

Lemma merge_errors_fragments (items : list pyval)
    (acc res : gmap string pyval) :
  merge_errors acc items = Ret res →
  ∃ fragments,
    Forall2 fragment_of items fragments ∧
    res = foldl (λ acc f, f ∪ acc) acc fragments.
Proof.
  revert acc. induction items as [| item rest IH]; intros acc; simpl.
  - intros [= <-]. exists []. by split.
  - destruct (py_getitem item "errors") as [e|] eqn:He; [|done]. simpl.
    destruct (dict_update acc e) as [acc'|] eqn:Hup; [|done]. simpl.
    intros Hrest.
    destruct (dict_update_mapping _ _ _ Hup) as (o & Ho & ->).
    destruct (IH _ Hrest) as (fragments & Hall & ->).
    exists (o :: fragments). split; [|done].
    constructor; [|done]. by exists e.
Qed.

Section Validation.
Context `{Env : Environment}.

Lemma validate_returns self institution_key record_id access_token w w' res :
  validate_metadata_record self institution_key record_id access_token w
    = (Ret res, w') →
  ∃ rec w0 v data results items validation_errors,
    get_metadata_record self institution_key record_id access_token w
      = (Ret rec, w0) ∧
    _call_ckan self "metadata_record_validate" access_token
      {[ "id" := record_id ]} w0 = (Ret v, w') ∧
    py_getitem v "data" = Ret data ∧
    py_getitem data "results" = Ret results ∧
    py_iter results = Ret items ∧
    merge_errors ∅ items = Ret validation_errors ∧
    res = MetadataValidationResult.mk
            (negb (py_truthy (PDict validation_errors))) validation_errors.
Proof.
  unfold validate_metadata_record. rewrite run_bind.
  destruct (get_metadata_record _ _ _ _ w) as [[rec | e] w0] eqn:Hget; [|done].
  rewrite run_bind.
  destruct (_call_ckan _ _ _ _ w0) as [[v | e] w1] eqn:Hcall; [|done].
  unfold lift.
  destruct (py_getitem v "data") as [data|] eqn:Hd; [|done]. simpl.
  destruct (py_getitem data "results") as [results|] eqn:Hr; [|done]. simpl.
  destruct (py_iter results) as [items|] eqn:Hi; [|done]. simpl.
  destruct (merge_errors ∅ items) as [ve|] eqn:Hm; [|done]. simpl.
  intros [= <- <-]. by exists rec, w0, v, data, results, items, ve.
Qed.

(** C7: a validation that succeeds returns the error mappings of all
    result fragments merged in fragment order, a later fragment
    overwriting an earlier one key by key, and its success flag says that
    the merged mapping is empty. *)
Theorem C7_validation_errors_merge_last_write_wins (self : CKANAdapter)
    (institution_key record_id : pyval) (access_token : string)
    (w w' : World) (res : MetadataValidationResult.t) :
  validate_metadata_record self institution_key record_id access_token w
    = (Ret res, w') →
  ∃ w0 v data results items fragments,
    _call_ckan self "metadata_record_validate" access_token
      {[ "id" := record_id ]} w0 = (Ret v, w') ∧
    py_getitem v "data" = Ret data ∧
    py_getitem data "results" = Ret results ∧
    py_iter results = Ret items ∧
    Forall2 fragment_of items fragments ∧
    MetadataValidationResult.errors res = merged fragments ∧
    (∀ k, MetadataValidationResult.errors res !! k
          = last_write_wins fragments k) ∧
    (MetadataValidationResult.success res = true
     ↔ MetadataValidationResult.errors res = ∅).
Proof.
  intros Hval.
  destruct (validate_returns _ _ _ _ _ _ _ Hval)
    as (rec & w0 & v & data & results & items & ve
        & _ & Hcall & Hd & Hr & Hi & Hm & ->).
  destruct (merge_errors_fragments _ _ _ Hm) as (fragments & Hall & ->).
  exists w0, v, data, results, items, fragments. simpl.
  repeat split; try done.
  - intros k. apply merged_lookup.
  - rewrite negb_involutive. by intros ?%bool_decide_eq_true.
  - rewrite negb_involutive. intros H. by apply bool_decide_eq_true.
Qed.

End Validation.

(** ** Key normalisation on the caller's object *)

Section Keys.
Context `{Env : Environment}.

Lemma collection_with_own_key (c : CollectionIn.t) (k : string) :
  CollectionIn.key c = PStr k → collection_with_key k c = c.
Proof. destruct c. simpl. by intros ->. Qed.

Lemma project_with_own_key (p : Project.t) (k : string) :
  Project.key p = PStr k → project_with_key k p = p.
Proof. destruct p. simpl. by intros ->. Qed.

Lemma collections_updated_same (l : loc) (c : CollectionIn.t) (w : World) :
  collections w !! l = Some c → collections_updated l c w = w.
Proof.
  intros H. unfold collections_updated. rewrite insert_id by done.
  by destruct w.
Qed.

Lemma projects_updated_same (l : loc) (p : Project.t) (w : World) :
  projects w !! l = Some p → projects_updated l p w = w.
Proof.
  intros H. unfold projects_updated. rewrite insert_id by done.
  by destruct w.
Qed.

Lemma create_collection_run self institution_key l access_token w c k :
  collections w !! l = Some c →
  CollectionIn.key c = PStr k →
  let c' := collection_with_key (normalize COLLECTION_SUFFIX k) c in
  create_collection self institution_key l access_token w
  = (input_dict ← lift (_translate_to_ckan_collection institution_key c');
     ckan_collection ← _call_ckan self "metadata_collection_create"
                         access_token input_dict;
     lift (_translate_from_ckan_collection ckan_collection))
      (collections_updated l c' w).
Proof.
  intros Hl Hk c'. subst c'. unfold create_collection, normalize.
  rewrite run_bind. unfold load_collection at 1. rewrite Hl, Hk.
  destruct (endswith k COLLECTION_SUFFIX) eqn:E; simpl.
  - rewrite run_bind. simpl. rewrite run_bind.
    unfold load_collection at 1. rewrite Hl.
    rewrite (collection_with_own_key c k Hk).
    by rewrite (collections_updated_same l c w Hl).
  - rewrite run_bind. simpl. rewrite run_bind.
    unfold load_collection at 1. simpl. by rewrite lookup_insert_eq.
Qed.

Lemma create_or_update_project_run self l access_token w p k :
  projects w !! l = Some p →
  Project.key p = PStr k →
  let k' := normalize PROJECT_SUFFIX k in
  let input_dict := project_kwargs k' p in
  create_or_update_project self l access_token w
  = (ckan_project ←
       try_except
         (_call_ckan self "infrastructure_create" access_token input_dict)
         (λ status_code detail,
            if (status_code =? HTTP_400_BAD_REQUEST)%Z
               && str_in "Group name already exists in database" detail
            then
              name ← lift (py_getitem (PDict input_dict) "name");
              _call_ckan self "infrastructure_update" access_token
                (<["id" := name]> input_dict)
            else raise (HTTPException status_code detail));
     lift (_translate_from_ckan_project ckan_project))
      (projects_updated l (project_with_key k' p) w).
Proof.
  intros Hl Hk k' input_dict. subst k' input_dict.
  unfold create_or_update_project, normalize.
  rewrite run_bind. unfold load_project at 1. rewrite Hl, Hk.
  destruct (endswith k PROJECT_SUFFIX) eqn:E; simpl.
  - rewrite run_bind. simpl. rewrite run_bind.
    unfold load_project at 1. rewrite Hl.
    rewrite (project_with_own_key p k Hk).
    rewrite (projects_updated_same l p w Hl).
    unfold _translate_to_ckan_project, project_kwargs. by rewrite Hk.
  - rewrite run_bind. simpl. rewrite run_bind.
    unfold load_project at 1. simpl. by rewrite lookup_insert_eq.
Qed.

End Keys.

Section Objects.
Context `{Env : Environment}.

Lemma keeps_ret {A} (a : A) : keeps_objects (mret a : M A).
Proof. by intros w. Qed.

Lemma keeps_lift {A} (o : outcome A) : keeps_objects (lift o).
Proof. by intros w. Qed.

Lemma keeps_raise {A} (e : exn) : keeps_objects (raise e : M A).
Proof. by intros w. Qed.

Lemma keeps_call_ckan self action access_token kwargs :
  keeps_objects (_call_ckan self action access_token kwargs).
Proof. intros w. by rewrite _call_ckan_run. Qed.

Lemma keeps_bind {A B} (m : M A) (f : A → M B) :
  keeps_objects m → (∀ a, keeps_objects (f a)) → keeps_objects (m ≫= f).
Proof.
  intros Hm Hf w. rewrite run_bind. destruct (Hm w) as [Hc Hp].
  destruct (m w) as [[a | e] w'] eqn:E; simpl in *; [|done].
  destruct (Hf a w') as [Hc' Hp']. by rewrite Hc', Hp'.
Qed.

Lemma keeps_try {A} (m : M A) (h : Z → string → M A) :
  keeps_objects m → (∀ s d, keeps_objects (h s d)) →
  keeps_objects (try_except m h).
Proof.
  intros Hm Hh w. unfold try_except. destruct (Hm w) as [Hc Hp].
  destruct (m w) as [[a | []] w'] eqn:E; simpl in *; try done.
  destruct (Hh status_code detail w') as [Hc' Hp']. by rewrite Hc', Hp'.
Qed.

Lemma keeps_if {A} (b : bool) (m1 m2 : M A) :
  keeps_objects m1 → keeps_objects m2 → keeps_objects (if b then m1 else m2).
Proof. by destruct b. Qed.

End Objects.

Ltac solve_keeps :=
  repeat first
    [ apply keeps_ret | apply keeps_lift | apply keeps_raise
    | apply keeps_call_ckan | apply keeps_bind | apply keeps_try
    | apply keeps_if | intro ].

Section KeyClaims.
Context `{Env : Environment}.


End KeyClaims.

(** ** Project upsert and collection create *)

Section Upsert.
Context `{Env : Environment}.

Lemma run_bind_lift {A B} (m : M A) (f : A → outcome B) (w : World) :
  (m ≫= λ a, lift (f a)) w = ((m w).1 ≫= f, (m w).2).
Proof. rewrite run_bind. by destruct (m w) as [[a | e] w']. Qed.

Lemma project_upsert_cases self l access_token w p k :
  projects w !! l = Some p →
  Project.key p = PStr k →
  let k' := normalize PROJECT_SUFFIX k in
  let input_dict := project_kwargs k' p in
  let first :=
    _call_ckan self "infrastructure_create" access_token input_dict
      (projects_updated l (project_with_key k' p) w) in
  create_or_update_project self l access_token w =
  match first.1 with
  | Ret ckan_project => (_translate_from_ckan_project ckan_project, first.2)
  | Exc (HTTPException status_code detail) =>
      if (status_code =? 400)%Z
         && str_in "Group name already exists in database" detail
      then
        let second :=
          _call_ckan self "infrastructure_update" access_token
            (<["id" := PStr k']> input_dict) first.2 in
        (second.1 ≫= _translate_from_ckan_project, second.2)
      else (Exc (HTTPException status_code detail), first.2)
  | Exc e => (Exc e, first.2)
  end.
Proof.
  intros Hl Hk k' input_dict first.
  rewrite (create_or_update_project_run _ _ _ _ _ _ Hl Hk).
  fold k' input_dict. rewrite run_bind. unfold try_except. fold first.
  destruct first as [[v | []] w1]; simpl; try done.
  unfold HTTP_400_BAD_REQUEST.
  destruct ((status_code =? 400)%Z && str_in _ detail); simpl; [|done].
  rewrite run_bind. unfold lift at 1.
  replace (input_dict !! "name") with (Some (PStr k')) by done.
  destruct (_call_ckan _ _ _ _ w1) as [[v | e] w2]; done.
Qed.

(** C2: after the key is normalised the project is created; exactly when
    the create fails with a 400 whose detail says that the group name
    already exists, one update call follows, with the same title and
    description and the normalised key as [id]; every other failure of the
    create is raised unchanged and nothing else is called. *)
Theorem C2_project_upsert_falls_back_to_update (self : CKANAdapter)
    (l : loc) (access_token : string) (w : World) (p : Project.t)
    (k : string) :
  projects w !! l = Some p →
  Project.key p = PStr k →
  let k' := normalize PROJECT_SUFFIX k in
  let input_dict : gmap string pyval :=
    {[ "name" := PStr k'; "title" := Project.name p;
       "description" := Project.description p ]} in
  let create := sent self "infrastructure_create" access_token input_dict in
  let update :=
    sent self "infrastructure_update" access_token
      (<["id" := PStr k']> input_dict) in
  let first :=
    _call_ckan self "infrastructure_create" access_token input_dict
      (projects_updated l (project_with_key k' p) w) in
  let run := create_or_update_project self l access_token w in
  match first.1 with
  | Ret ckan_project =>
      run = (_translate_from_ckan_project ckan_project, first.2) ∧
      calls run.2 = calls w ++ [create]
  | Exc (HTTPException status_code detail) =>
      if (status_code =? 400)%Z
         && str_in "Group name already exists in database" detail
      then
        let second :=
          _call_ckan self "infrastructure_update" access_token
            (<["id" := PStr k']> input_dict) first.2 in
        run = (second.1 ≫= _translate_from_ckan_project, second.2) ∧
        calls run.2 = calls w ++ [create; update]
      else
        run = (Exc (HTTPException status_code detail), first.2) ∧
        calls run.2 = calls w ++ [create]
  | Exc e => run = (Exc e, first.2)
  end.
Proof.
  intros Hl Hk k' input_dict create update first run.
  pose proof (project_upsert_cases self l access_token w p k Hl Hk) as Hrun.
  simpl in Hrun. fold k' in Hrun.
  change (project_kwargs k' p) with input_dict in Hrun.
  fold first run in Hrun.
  assert (calls first.2 = calls w ++ [create]) as Hfirst.
  { subst first. by rewrite _call_ckan_run. }
  destruct first.1 as [v | []] eqn:E; try done.
  - rewrite Hrun. by split.
  - destruct ((status_code =? 400)%Z && str_in _ detail).
    + rewrite Hrun. split; [done |]. simpl.
      rewrite _call_ckan_run. simpl. rewrite Hfirst.
      by rewrite <- app_assoc.
    + rewrite Hrun. by split.
Qed.

End Upsert.

Section Normalisation.
Context `{Env : Environment}.

Lemma translate_to_collection institution_key (c : CollectionIn.t)
    (k : string) (keys : list pyval) :
  py_iter (CollectionIn.project_keys c) = Ret keys →
  _translate_to_ckan_collection institution_key (collection_with_key k c)
  = Ret (collection_kwargs institution_key k c keys).
Proof.
  intros H. unfold _translate_to_ckan_collection. simpl. by rewrite H.
Qed.


End Normalisation.

(** ** Annotations *)

Section Annotations.
Context `{Env : Environment}.

Lemma call_ckan_result self action access_token kwargs w :
  (∃ v, (_call_ckan self action access_token kwargs w).1 = Ret v)
  ∨ (∃ status_code detail,
       (_call_ckan self action access_token kwargs w).1
       = Exc (HTTPException status_code detail)
       ∧ py_truthy (PStr detail) = true)
  ∨ (∃ cls msg,
       (_call_ckan self action access_token kwargs w).1
       = Exc (Unhandled cls msg)
       ∧ failure_of cls = None).
Proof.
  rewrite _call_ckan_run. simpl.
  destruct (call_action _ _ _ _ _ _).1 as [v | cls msg]; simpl.
  - left. by exists v.
  - right. destruct (failure_of cls) as [f |] eqn:Hf.
    + left. do 2 eexists. split; [done |]. by destruct f.
    + right. by exists cls, msg.
Qed.

Lemma annotate_step self record_id access_token key value w :
  (∃ w',
     annotate self record_id access_token key value w = (Ret tt, w') ∧
     annotation_step self record_id access_token key value w w')
  ∨ (∃ cls msg w',
       annotate self record_id access_token key value w
       = (Exc (Unhandled cls msg), w') ∧
       failure_of cls = None ∧
       annotation_interrupted self record_id access_token key value
         w cls msg w').
Proof.
  unfold annotate. fold (annotation_kwargs record_id key value).
  unfold try_except. rewrite run_bind.
  destruct (call_ckan_result self
              "metadata_record_workflow_annotation_create" access_token
              (annotation_kwargs record_id key value) w)
    as [[v Hv] | [(s & d & Hd & Htruthy) | (cls & msg & Hu & Hcls)]].
  - destruct (_call_ckan _ _ _ _ w) as [r1 w1] eqn:E1. simpl in Hv. subst r1.
    left. exists w1. split; [done |]. by eapply annotation_created.
  - destruct (_call_ckan _ _ _ _ w) as [r1 w1] eqn:E1. simpl in Hd. subst r1.
    rewrite run_bind.
    destruct (decide (s = 400%Z)) as [-> | Hs].
    + simpl. rewrite run_bind.
      destruct (call_ckan_result self
                  "metadata_record_workflow_annotation_update" access_token
                  (annotation_kwargs record_id key value) w1)
        as [[v Hv] | [(s' & d' & Hd' & Htruthy')
                     | (cls & msg & Hu & Hcls)]].
      * destruct (_call_ckan _ _ _ _ w1) as [r2 w2] eqn:E2.
        simpl in Hv. subst r2. simpl.
        left. exists w2. split; [done |]. by eapply annotation_updated.
      * destruct (_call_ckan _ _ _ _ w1) as [r2 w2] eqn:E2.
        simpl in Hd'. subst r2. simpl in Htruthy'. simpl. rewrite Htruthy'.
        left. eexists. split; [done |]. by eapply annotation_update_failed.
      * destruct (_call_ckan _ _ _ _ w1) as [r2 w2] eqn:E2.
        simpl in Hu. subst r2. simpl.
        right. exists cls, msg, w2. split; [done |]. split; [done |].
        by eapply annotation_update_interrupted.
    + replace (s =? 400)%Z with false by (symmetry; by apply Z.eqb_neq).
      simpl in Htruthy. simpl. rewrite Htruthy.
      left. eexists. split; [done |]. by eapply annotation_create_failed.
  - destruct (_call_ckan _ _ _ _ w) as [r1 w1] eqn:E1. simpl in Hu. subst r1.
    simpl. right. exists cls, msg, w1. split; [done |]. split; [done |].
    by eapply annotation_create_interrupted.
Qed.


Lemma create_record_run self institution_key metadata_record access_token
    w w1 ckan_record record_id :
  _call_ckan self "metadata_record_create" access_token
    (create_kwargs institution_key metadata_record) w
    = (Ret ckan_record, w1) →
  py_getitem ckan_record "id" = Ret record_id →
  create_or_update_metadata_record self institution_key metadata_record
    access_token w
  = (_annotate_metadata_record self record_id metadata_record access_token;;
     convenience_validation self institution_key record_id access_token
       ckan_record) w1.
Proof.
  intros Hcall Hid. unfold create_or_update_metadata_record.
  fold (create_kwargs institution_key metadata_record).
  rewrite (run_bind_ret _ _ _ _ _ Hcall).
  rewrite run_bind. unfold lift at 1. by rewrite Hid.
Qed.

Lemma update_record_run self institution_key record_id metadata_record
    access_token w w0 w1 rec ckan_record :
  get_metadata_record self institution_key record_id access_token w
    = (Ret rec, w0) →
  _call_ckan self "metadata_record_update" access_token
    (update_kwargs institution_key record_id metadata_record) w0
    = (Ret ckan_record, w1) →
  update_metadata_record self institution_key record_id metadata_record
    access_token w
  = (_annotate_metadata_record self record_id metadata_record access_token;;
     convenience_validation self institution_key record_id access_token
       ckan_record) w1.
Proof.
  intros Hget Hcall. unfold update_metadata_record.
  rewrite (run_bind_ret _ _ _ _ _ Hget).
  fold (create_kwargs institution_key metadata_record).
  fold (update_kwargs institution_key record_id metadata_record).
  by rewrite (run_bind_ret _ _ _ _ _ Hcall).
Qed.


End Annotations.

(** ** Validation for convenience *)

Section Convenience.
Context `{Env : Environment}.





End Convenience.

(** * Further properties of the adapter *)

(** ** Comprehensions *)

Lemma comprehension_Forall2 {A} (f : pyval → outcome A) (items : list pyval)
    (ys : list A) :
  comprehension f items = Ret ys ↔ Forall2 (λ x y, f x = Ret y) items ys.
Proof.
  revert ys. induction items as [| x rest IH]; intros ys; simpl.
  - split.
    + intros [= <-]. constructor.
    + intros H. by inversion H.
  - split.
    + destruct (f x) as [y|] eqn:E; [|done]. simpl.
      destruct (comprehension f rest) as [ys'|] eqn:E'; [|done]. simpl.
      intros [= <-]. constructor; [done |]. by apply IH.
    + intros H. inversion H as [| ? y ? ys' Hy Hrest]; subst.
      rewrite Hy. simpl. apply IH in Hrest. by rewrite Hrest.
Qed.

Lemma comprehension_first_failure {A} (f : pyval → outcome A)
    (items : list pyval) (e : exn) :
  comprehension f items = Exc e ↔
  ∃ done x rest ys,
    items = done ++ x :: rest ∧
    Forall2 (λ x y, f x = Ret y) done ys ∧
    f x = Exc e.
Proof.
  split.
  - induction items as [| x rest IH]; simpl; [done |].
    destruct (f x) as [y|e'] eqn:E; simpl.
    + destruct (comprehension f rest) as [ys'|e'] eqn:E'; simpl; [done |].
      intros [= ->].
      destruct (IH eq_refl) as (done' & x' & rest' & ys & -> & Hall & Hx).
      exists (x :: done'), x', rest', (y :: ys).
      split; [done |]. split; [by constructor | done].
    + intros [= ->]. exists [], x, rest, []. by repeat split.
  - intros (done' & x & rest & ys & -> & Hall & Hx).
    induction Hall as [| x0 y0 done0 ys0 Hx0 _ IH]; simpl.
    + by rewrite Hx.
    + rewrite Hx0. simpl. by rewrite IH.
Qed.

(** ** Translators *)

(** X1: translating a project to its CKAN dict and back gives the project
    again, and translating a CKAN dict to a project and back keeps only
    entries the dict had. *)
Theorem X1_project_translation_round_trip (project : Project.t) :
  _translate_from_ckan_project (PDict (_translate_to_ckan_project project))
  = Ret project ∧
  (∀ d p,
     _translate_from_ckan_project (PDict d) = Ret p →
     _translate_to_ckan_project p ⊆ d).
Proof.
  split.
  - by destruct project.
  - intros d p. unfold _translate_from_ckan_project, py_getitem.
    destruct (d !! "name") as [a|] eqn:E1; [|done]. simpl.
    destruct (d !! "title") as [b|] eqn:E2; [|done]. simpl.
    destruct (d !! "description") as [c|] eqn:E3; [|done]. simpl.
    intros [= <-]. unfold _translate_to_ckan_project. simpl.
    apply map_subseteq_spec. intros k v.
    rewrite !lookup_insert_Some, lookup_singleton_Some.
    intros [[<- <-] | [_ [[<- <-] | [_ [<- <-]]]]]; done.
Qed.

Lemma comprehension_project_ids (keys : list pyval) :
  comprehension (λ project_dict, py_getitem project_dict "id")
    ((λ key, PDict {[ "id" := key ]}) <$> keys) = Ret keys.
Proof.
  apply comprehension_Forall2.
  induction keys as [| k rest IH]; [constructor |].
  rewrite fmap_cons. constructor; [|done].
  unfold py_getitem. by rewrite lookup_singleton_eq.
Qed.

(** X2: a collection whose project keys can be iterated translates to a
    CKAN dict, and that dict translates back to the collection of the
    given institution with the same key, name, description, DOI scope and
    project keys, in the same order. *)
Theorem X2_collection_translation_round_trip (institution_key : pyval)
    (collection : CollectionIn.t) (keys : list pyval) :
  py_iter (CollectionIn.project_keys collection) = Ret keys →
  ∃ d,
    _translate_to_ckan_collection institution_key collection = Ret d ∧
    _translate_from_ckan_collection (PDict d)
    = Ret (Collection.mk institution_key (CollectionIn.key collection)
             (CollectionIn.name collection)
             (CollectionIn.description collection)
             (CollectionIn.doi_scope collection) keys).
Proof.
  intros Hkeys. unfold _translate_to_ckan_collection. rewrite Hkeys. simpl.
  eexists. split; [done |].
  unfold _translate_from_ckan_collection, py_getitem.
  repeat (rewrite lookup_insert_eq
          || (rewrite lookup_insert_ne by done)
          || rewrite lookup_singleton_eq
          || (progress simpl)).
  by rewrite comprehension_project_ids.
Qed.

Lemma find_lacks_present (d : gmap string pyval) (keys : list string) :
  find (lacks d) keys = None ↔ Forall (λ k, is_Some (d !! k)) keys.
Proof.
  induction keys as [| k rest IH]; simpl.
  - split; [constructor | done].
  - unfold lacks at 1. destruct (d !! k) eqn:E.
    + rewrite IH. split.
      * intros H. constructor; [by eexists | done].
      * intros H. by inversion H.
    + split; [done |]. intros H. inversion H as [| ? ? [? Hk] ?]; subst.
      congruence.
Qed.

(** X3: a CKAN record dict translates exactly when it has the ten keys
    the translator reads; otherwise the translator raises [KeyError] for
    the first of them, in reading order, that is missing.  Other keys of
    the dict play no part, and a value that is not a dict raises
    [TypeError]. *)
Theorem X3_record_translation_needs_its_ten_keys (d : gmap string pyval) :
  match find (lacks d) record_keys with
  | Some key => _translate_from_ckan_record (PDict d) = Exc (KeyError key)
  | None => ∃ rec, _translate_from_ckan_record (PDict d) = Ret rec
  end ∧
  ((∃ rec, _translate_from_ckan_record (PDict d) = Ret rec)
   ↔ Forall (λ key, is_Some (d !! key)) record_keys) ∧
  (∀ v, (∀ d', v ≠ PDict d') →
        _translate_from_ckan_record v = Exc TypeError).
Proof.
  assert (∀ v, (∀ d', v ≠ PDict d') →
               _translate_from_ckan_record v = Exc TypeError) as Hother.
  { intros v Hv. destruct v as [| | | | |d']; try done. by destruct (Hv d'). }
  assert (match find (lacks d) record_keys with
          | Some key =>
              _translate_from_ckan_record (PDict d) = Exc (KeyError key)
          | None => ∃ rec, _translate_from_ckan_record (PDict d) = Ret rec
          end) as Hfirst.
  { unfold record_keys, find, lacks, _translate_from_ckan_record, py_getitem.
    destruct (d !! "owner_org") as [a1|]; [|done].
    destruct (d !! "metadata_collection_id") as [a2|]; [|done].
    destruct (d !! "metadata_standard_id") as [a3|]; [|done].
    destruct (d !! "metadata_json") as [a4|]; [|done].
    destruct (d !! "id") as [a5|]; [|done].
    destruct (d !! "name") as [a6|]; [|done].
    simpl. destruct (py_ne a6 a5); simpl.
    all: destruct (d !! "doi") as [a7|]; [|done].
    all: destruct (d !! "validated") as [a8|]; [|done].
    all: destruct (d !! "errors") as [a9|]; [|done].
    all: destruct (d !! "workflow_state_id") as [a10|]; [|done].
    all: simpl; by eexists. }
  split; [exact Hfirst |]. split; [|exact Hother].
  rewrite <- find_lacks_present.
  destruct (find (lacks d) record_keys) as [key|].
  - rewrite Hfirst. split; [by intros [rec ?] | done].
  - done.
Qed.

(** ** What a failed remote call looks like *)

Section Failures.
Context `{Env : Environment}.

(** X4: [_call_ckan] raises only when [call_action] raised.  For an
    exception of the [requests] family or of the [CKANAPIError] family it
    raises an [HTTPException] whose status is 400, 403, 404 or 503 and
    whose detail is not empty and ends with the exception's message; an
    exception of neither family passes through as it is.  None of the
    interpreter's own exceptions comes out of it. *)
Theorem X4_call_ckan_raises_classified_or_foreign_errors (self : CKANAdapter)
    (action access_token : string) (kwargs : gmap string pyval) (w : World)
    (e : exn) :
  (_call_ckan self action access_token kwargs w).1 = Exc e →
  ∃ cls msg,
    (call_action (ckan_server_url self) action kwargs
       ("Bearer " +:+ access_token)
       (negb (String.eqb (SERVER_ENV self) "development")) (backend w)).1
    = Raises cls msg ∧
    if isinstance cls RequestException || isinstance cls CKANAPIError
    then
      ∃ status_code detail,
        e = HTTPException status_code detail ∧
        status_code ∈ reported_statuses ∧
        detail ≠ "" ∧
        endswith detail msg = true
    else e = Unhandled cls msg.
Proof.
  rewrite _call_ckan_run. simpl.
  destruct (call_action _ _ _ _ _ _).1 as [v | cls msg]; simpl; [done |].
  intros He. exists cls, msg. split; [done |].
  destruct cls; simpl in *; injection He as <-; try done;
    do 2 eexists; (split; [done |]);
    (split; [unfold reported_statuses; set_solver |]);
    (split; [done | apply endswith_append]).
Qed.

End Failures.

(** ** Invariants of whole operations *)

Section Within.
Context `{Env : Environment}.
Context (R : relation World) `{!PreOrder R}.

Lemma within_ret {A} (a : A) : within R (mret a : M A).
Proof. by intros w. Qed.

Lemma within_lift {A} (o : outcome A) : within R (lift o).
Proof. by intros w. Qed.

Lemma within_raise {A} (e : exn) : within R (raise e : M A).
Proof. by intros w. Qed.

Lemma within_bind {A B} (m : M A) (f : A → M B) :
  within R m → (∀ a, within R (f a)) → within R (m ≫= f).
Proof.
  intros Hm Hf w. rewrite run_bind. specialize (Hm w).
  destruct (m w) as [[a | e] w']; simpl in *; [|done].
  by etrans; [|apply Hf].
Qed.

Lemma within_try {A} (m : M A) (h : Z → string → M A) :
  within R m → (∀ s d, within R (h s d)) → within R (try_except m h).
Proof.
  intros Hm Hh w. unfold try_except. specialize (Hm w).
  destruct (m w) as [[a | []] w']; simpl in *; try done.
  by etrans; [|apply Hh].
Qed.

Lemma within_if {A} (b : bool) (m1 m2 : M A) :
  within R m1 → within R m2 → within R (if b then m1 else m2).
Proof. by destruct b. Qed.

End Within.

Ltac solve_within prim :=
  repeat first
    [ match goal with |- PreOrder _ => apply _ end
    | apply within_ret | apply within_lift | apply within_raise
    | apply within_bind | apply within_try | apply within_if
    | prim
    | match goal with
      | |- within _ (match ?x with _ => _ end) => destruct x
      end
    | intro ].

Section Forwarding.
Context `{Env : Environment}.

#[local] Instance forwarded_preorder self access_token :
  PreOrder (forwarded self access_token).
Proof.
  split.
  - intros w. exists []. by rewrite app_nil_r.
  - intros w1 w2 w3 (t & Ht & Hall) (t' & Ht' & Hall').
    exists (t ++ t'). rewrite Ht', Ht, app_assoc. split; [done |].
    by apply Forall_app.
Qed.

#[local] Instance same_log_preorder : PreOrder same_log.
Proof.
  split.
  - by intros w.
  - intros w1 w2 w3 H1 H2. unfold same_log in *. congruence.
Qed.

Lemma forwarded_call_ckan self action access_token kwargs :
  within (forwarded self access_token)
    (_call_ckan self action access_token kwargs).
Proof.
  intros w. rewrite _call_ckan_run. simpl. eexists. split; [done |].
  by constructor.
Qed.

Lemma forwarded_no_call self access_token w w' :
  calls w' = calls w → forwarded self access_token w w'.
Proof. intros H. exists []. by rewrite app_nil_r. Qed.

Lemma forwarded_logger self access_token lvl msg :
  within (forwarded self access_token) (logger lvl msg).
Proof. intros w. by apply forwarded_no_call. Qed.

Lemma forwarded_load_collection self access_token l :
  within (forwarded self access_token) (load_collection l).
Proof.
  intros w. apply forwarded_no_call. unfold load_collection.
  by destruct (collections w !! l).
Qed.

Lemma forwarded_store_collection self access_token l c :
  within (forwarded self access_token) (store_collection l c).
Proof. intros w. by apply forwarded_no_call. Qed.

Lemma forwarded_load_project self access_token l :
  within (forwarded self access_token) (load_project l).
Proof.
  intros w. apply forwarded_no_call. unfold load_project.
  by destruct (projects w !! l).
Qed.

Lemma forwarded_store_project self access_token l p :
  within (forwarded self access_token) (store_project l p).
Proof. intros w. by apply forwarded_no_call. Qed.

Lemma same_log_call_ckan self action access_token kwargs :
  within same_log (_call_ckan self action access_token kwargs).
Proof. intros w. by rewrite _call_ckan_run. Qed.

Lemma same_log_load_collection l : within same_log (load_collection l).
Proof.
  intros w. unfold load_collection, same_log.
  by destruct (collections w !! l).
Qed.

Lemma same_log_store_collection l c : within same_log (store_collection l c).
Proof. by intros w. Qed.

Lemma same_log_load_project l : within same_log (load_project l).
Proof.
  intros w. unfold load_project, same_log. by destruct (projects w !! l).
Qed.

Lemma same_log_store_project l p : within same_log (store_project l p).
Proof. by intros w. Qed.

End Forwarding.

Ltac forwarded_step :=
  first
    [ apply forwarded_call_ckan | apply forwarded_logger
    | apply forwarded_load_collection | apply forwarded_store_collection
    | apply forwarded_load_project | apply forwarded_store_project ].

Ltac same_log_step :=
  first
    [ apply same_log_call_ckan
    | apply same_log_load_collection | apply same_log_store_collection
    | apply same_log_load_project | apply same_log_store_project ].

Section OperationInvariants.
Context `{Env : Environment}.

#[local] Existing Instance forwarded_preorder.
#[local] Existing Instance same_log_preorder.

(** X5: every remote call that any operation of the adapter makes goes to
    the adapter's server, carries [Bearer] and the caller's token as API
    key, and checks certificates unless the server environment is
    [development]. *)
Theorem X5_every_call_forwards_the_callers_token (self : CKANAdapter)
    (access_token : string) :
  (∀ institution_key pagination,
     within (forwarded self access_token)
       (list_metadata_records self institution_key pagination access_token)) ∧
  (∀ institution_key record_id,
     within (forwarded self access_token)
       (get_metadata_record self institution_key record_id access_token)) ∧
  (∀ institution_key metadata_record,
     within (forwarded self access_token)
       (create_or_update_metadata_record self institution_key metadata_record
          access_token)) ∧
  (∀ institution_key record_id metadata_record,
     within (forwarded self access_token)
       (update_metadata_record self institution_key record_id metadata_record
          access_token)) ∧
  (∀ institution_key record_id,
     within (forwarded self access_token)
       (delete_metadata_record self institution_key record_id access_token)) ∧
  (∀ institution_key record_id,
     within (forwarded self access_token)
       (validate_metadata_record self institution_key record_id
          access_token)) ∧
  (∀ institution_key record_id state,
     within (forwarded self access_token)
       (change_state_of_metadata_record self institution_key record_id state
          access_token)) ∧
  (∀ institution_key,
     within (forwarded self access_token)
       (list_collections self institution_key access_token)) ∧
  (∀ institution_key collection,
     within (forwarded self access_token)
       (create_collection self institution_key collection access_token)) ∧
  within (forwarded self access_token) (list_projects self access_token) ∧
  (∀ project,
     within (forwarded self access_token)
       (create_or_update_project self project access_token)).
Proof.
  assert (∀ institution_key record_id,
            within (forwarded self access_token)
              (get_metadata_record self institution_key record_id
                 access_token)) as Hget.
  { intros. unfold get_metadata_record. solve_within forwarded_step. }
  assert (∀ institution_key record_id,
            within (forwarded self access_token)
              (validate_metadata_record self institution_key record_id
                 access_token)) as Hvalidate.
  { intros. unfold validate_metadata_record.
    solve_within ltac:(first [apply Hget | forwarded_step]). }
  assert (∀ record_id metadata_record,
            within (forwarded self access_token)
              (_annotate_metadata_record self record_id metadata_record
                 access_token)) as Hannotate.
  { intros. unfold _annotate_metadata_record, annotate.
    solve_within forwarded_step. }
  repeat split; intros;
    unfold list_metadata_records, create_or_update_metadata_record,
      update_metadata_record, delete_metadata_record,
      change_state_of_metadata_record, list_collections, create_collection,
      list_projects, create_or_update_project;
    solve_within
      ltac:(first [apply Hget | apply Hvalidate | apply Hannotate
                  | forwarded_step]).
Qed.

(** X6: only the create and the update of a metadata record ever write
    to the log; listing, get, delete, validate, the workflow transition,
    the collection create and the project upsert report a failure by
    raising it and log nothing. *)
Theorem X6_only_record_mutations_log (self : CKANAdapter)
    (access_token : string) :
  (∀ institution_key pagination,
     within same_log
       (list_metadata_records self institution_key pagination access_token)) ∧
  (∀ institution_key record_id,
     within same_log
       (get_metadata_record self institution_key record_id access_token)) ∧
  (∀ institution_key record_id,
     within same_log
       (delete_metadata_record self institution_key record_id access_token)) ∧
  (∀ institution_key record_id,
     within same_log
       (validate_metadata_record self institution_key record_id
          access_token)) ∧
  (∀ institution_key record_id state,
     within same_log
       (change_state_of_metadata_record self institution_key record_id state
          access_token)) ∧
  (∀ institution_key,
     within same_log (list_collections self institution_key access_token)) ∧
  (∀ institution_key collection,
     within same_log
       (create_collection self institution_key collection access_token)) ∧
  within same_log (list_projects self access_token) ∧
  (∀ project,
     within same_log (create_or_update_project self project access_token)).
Proof.
  assert (∀ institution_key record_id,
            within same_log
              (get_metadata_record self institution_key record_id
                 access_token)) as Hget.
  { intros. unfold get_metadata_record. solve_within same_log_step. }
  repeat split; intros;
    unfold list_metadata_records, delete_metadata_record,
      validate_metadata_record, change_state_of_metadata_record,
      list_collections, create_collection, list_projects,
      create_or_update_project;
    solve_within ltac:(first [apply Hget | same_log_step]).
Qed.

End OperationInvariants.

(** ** Listings *)

Section Listings.
Context `{Env : Environment}.

Lemma listing_run {A} (f : pyval → outcome A) (m : M pyval) (w : World) :
  (v ← m; lift (items ← py_iter v; comprehension f items)) w
  = ((m w).1 ≫= λ v, items ← py_iter v; comprehension f items, (m w).2).
Proof. apply run_bind_lift. Qed.

Lemma listing_cases {A} (f : pyval → outcome A) (answer : outcome pyval) :
  let run := answer ≫= λ v, items ← py_iter v; comprehension f items in
  (∀ e, answer = Exc e → run = Exc e) ∧
  (∀ items, answer = Ret (PList items) →
     (∀ ys, run = Ret ys ↔ Forall2 (λ x y, f x = Ret y) items ys) ∧
     (∀ e, run = Exc e ↔
        ∃ done x rest ys,
          items = done ++ x :: rest ∧
          Forall2 (λ x y, f x = Ret y) done ys ∧ f x = Exc e)).
Proof.
  intros run. subst run. split.
  - by intros e ->.
  - intros items ->. simpl. split.
    + intros ys. apply comprehension_Forall2.
    + intros e. apply comprehension_first_failure.
Qed.

(** X7: [list_metadata_records] makes one call, passing the institution,
    the offset and the limit, and translates what comes back item by item
    in the order of the response.  It returns a list exactly when every
    item translates, and otherwise raises what the first item that does
    not translate raises.  It does not look at the state or the owner of
    an item. *)
Theorem X7_listing_records_translates_every_item (self : CKANAdapter)
    (institution_key : pyval) (pagination : Pagination.t)
    (access_token : string) (w : World) :
  let answer :=
    _call_ckan self "metadata_record_list" access_token
      {[ "owner_org" := institution_key;
         "offset" := Pagination.offset pagination;
         "limit" := Pagination.limit pagination;
         "all_fields" := PBool true;
         "deserialize_json" := PBool true ]} w in
  let run :=
    list_metadata_records self institution_key pagination access_token w in
  run.2 = answer.2 ∧
  calls run.2
  = calls w ++
    [sent self "metadata_record_list" access_token
       {[ "owner_org" := institution_key;
          "offset" := Pagination.offset pagination;
          "limit" := Pagination.limit pagination;
          "all_fields" := PBool true;
          "deserialize_json" := PBool true ]}] ∧
  (∀ e, answer.1 = Exc e → run.1 = Exc e) ∧
  (∀ items, answer.1 = Ret (PList items) →
     (∀ recs,
        run.1 = Ret recs ↔
        Forall2 (λ item rec, _translate_from_ckan_record item = Ret rec)
          items recs) ∧
     (∀ e,
        run.1 = Exc e ↔
        ∃ done item rest recs,
          items = done ++ item :: rest ∧
          Forall2 (λ item rec, _translate_from_ckan_record item = Ret rec)
            done recs ∧
          _translate_from_ckan_record item = Exc e)).
Proof.
  intros answer run. subst run. unfold list_metadata_records.
  rewrite listing_run. fold answer. simpl.
  split; [done |]. split; [subst answer; by rewrite _call_ckan_run |].
  apply listing_cases.
Qed.

(** X8: [list_collections] and [list_projects] make one call each and
    translate the response item by item, in order; they return a list
    exactly when every item translates and otherwise raise what the first
    item that does not translate raises. *)
Theorem X8_listing_collections_and_projects (self : CKANAdapter)
    (institution_key : pyval) (access_token : string) (w : World) :
  (let answer :=
     _call_ckan self "metadata_collection_list" access_token
       {[ "owner_org" := institution_key; "all_fields" := PBool true ]} w in
   let run := list_collections self institution_key access_token w in
   run.2 = answer.2 ∧
   calls run.2
   = calls w ++
     [sent self "metadata_collection_list" access_token
        {[ "owner_org" := institution_key; "all_fields" := PBool true ]}] ∧
   (∀ e, answer.1 = Exc e → run.1 = Exc e) ∧
   (∀ items, answer.1 = Ret (PList items) →
      (∀ cs,
         run.1 = Ret cs ↔
         Forall2 (λ item c, _translate_from_ckan_collection item = Ret c)
           items cs) ∧
      (∀ e,
         run.1 = Exc e ↔
         ∃ done item rest cs,
           items = done ++ item :: rest ∧
           Forall2 (λ item c, _translate_from_ckan_collection item = Ret c)
             done cs ∧
           _translate_from_ckan_collection item = Exc e))) ∧
  (let answer :=
     _call_ckan self "infrastructure_list" access_token
       {[ "all_fields" := PBool true ]} w in
   let run := list_projects self access_token w in
   run.2 = answer.2 ∧
   calls run.2
   = calls w ++
     [sent self "infrastructure_list" access_token
        {[ "all_fields" := PBool true ]}] ∧
   (∀ e, answer.1 = Exc e → run.1 = Exc e) ∧
   (∀ items, answer.1 = Ret (PList items) →
      (∀ ps,
         run.1 = Ret ps ↔
         Forall2 (λ item p, _translate_from_ckan_project item = Ret p)
           items ps) ∧
      (∀ e,
         run.1 = Exc e ↔
         ∃ done item rest ps,
           items = done ++ item :: rest ∧
           Forall2 (λ item p, _translate_from_ckan_project item = Ret p)
             done ps ∧
           _translate_from_ckan_project item = Exc e))).
Proof.
  split.
  - intros answer run. subst run. unfold list_collections.
    rewrite listing_run. fold answer. simpl.
    split; [done |]. split; [subst answer; by rewrite _call_ckan_run |].
    apply listing_cases.
  - intros answer run. subst run. unfold list_projects.
    rewrite listing_run. fold answer. simpl.
    split; [done |]. split; [subst answer; by rewrite _call_ckan_run |].
    apply listing_cases.
Qed.

End Listings.

(** ** Get, delete and the workflow transition *)

Section SingleRecord.
Context `{Env : Environment}.

(** X9: [get_metadata_record] returns the translation of a response that
    is active and owned by the given institution.  A response without a
    [state], or an active one without an [owner_org], makes it raise the
    lookup's own exception, not a 404. *)
Theorem X9_get_translates_a_visible_record (self : CKANAdapter)
    (institution_key record_id : pyval) (access_token : string) (w : World)
    (v : pyval) :
  let shown :=
    _call_ckan self "metadata_record_show" access_token
      {[ "id" := record_id; "deserialize_json" := PBool true ]} w in
  shown.1 = Ret v →
  (∀ st o,
     py_getitem v "state" = Ret st → py_eq st (PStr "active") = true →
     py_getitem v "owner_org" = Ret o → py_eq o institution_key = true →
     get_metadata_record self institution_key record_id access_token w
     = (_translate_from_ckan_record v, shown.2)) ∧
  (∀ e,
     py_getitem v "state" = Exc e →
     get_metadata_record self institution_key record_id access_token w
     = (Exc e, shown.2)) ∧
  (∀ st e,
     py_getitem v "state" = Ret st → py_eq st (PStr "active") = true →
     py_getitem v "owner_org" = Exc e →
     get_metadata_record self institution_key record_id access_token w
     = (Exc e, shown.2)).
Proof.
  intros shown Hv. unfold get_metadata_record. rewrite run_bind.
  fold shown. destruct shown as [r w1]. simpl in Hv. subst r. simpl.
  repeat split.
  - intros st o Hst Hact Ho Hown. rewrite run_bind. unfold lift at 1.
    rewrite Hst. rewrite run_bind. unfold py_ne. rewrite Hact. simpl.
    rewrite run_bind. unfold lift at 1. rewrite Ho. simpl.
    by rewrite Hown.
  - intros e He. rewrite run_bind. unfold lift at 1. by rewrite He.
  - intros st e Hst Hact He. rewrite run_bind. unfold lift at 1.
    rewrite Hst. rewrite run_bind. unfold py_ne. rewrite Hact. simpl.
    rewrite run_bind. unfold lift at 1. by rewrite He.
Qed.

(** X10: [delete_metadata_record] never returns [False].  Once the check
    has passed it makes the delete call and nothing else: it returns
    [True] when that call returns, whatever it returns, and raises the
    call's error otherwise. *)
Theorem X10_delete_reports_true_or_raises (self : CKANAdapter)
    (institution_key record_id : pyval) (access_token : string) (w : World) :
  let run :=
    delete_metadata_record self institution_key record_id access_token w in
  run.1 ≠ Ret false ∧
  (∀ rec w0,
     get_metadata_record self institution_key record_id access_token w
       = (Ret rec, w0) →
     let deleted :=
       _call_ckan self "metadata_record_delete" access_token
         {[ "id" := record_id ]} w0 in
     run = (deleted.1 ≫= λ _, Ret true, deleted.2) ∧
     calls run.2
     = calls w ++
       [show_call self record_id access_token;
        sent self "metadata_record_delete" access_token
          {[ "id" := record_id ]}]).
Proof.
  intros run. subst run. unfold delete_metadata_record. split.
  - rewrite run_bind.
    destruct (get_metadata_record _ _ _ _ w) as [[rec | e] w0]; [|done].
    rewrite run_bind.
    by destruct (_call_ckan _ _ _ _ w0) as [[v | e] w1].
  - intros rec w0 Hget.
    set (deleted := _call_ckan self "metadata_record_delete" _ _ w0).
    pose proof (get_calls self institution_key record_id access_token w)
      as Hcalls.
    rewrite Hget in Hcalls. simpl in Hcalls.
    rewrite (run_bind_ret _ _ _ _ _ Hget). rewrite run_bind. fold deleted.
    assert (calls deleted.2
            = calls w0 ++
              [sent self "metadata_record_delete" access_token
                 {[ "id" := record_id ]}]) as Hdel.
    { subst deleted. by rewrite _call_ckan_run. }
    destruct deleted as [[v | e] w1]; simpl in *;
      (split; [done |]); by rewrite Hdel, Hcalls, <- app_assoc.
Qed.

(** X11: once the check has passed, the workflow transition makes the
    transition call with the record id and the target state and nothing
    else.  Its result carries the errors the backend reported under
    [data] and [errors], and succeeds exactly when they are empty; a
    response without them raises, after the transition has been asked
    for. *)
Theorem X11_transition_succeeds_iff_no_errors (self : CKANAdapter)
    (institution_key record_id state : pyval) (access_token : string)
    (w w0 : World) (rec : MetadataRecord.t) :
  get_metadata_record self institution_key record_id access_token w
    = (Ret rec, w0) →
  let moved :=
    _call_ckan self "metadata_record_workflow_state_transition" access_token
      {[ "id" := record_id; "workflow_state_id" := state ]} w0 in
  let run :=
    change_state_of_metadata_record self institution_key record_id state
      access_token w in
  run.2 = moved.2 ∧
  calls run.2
  = calls w ++
    [show_call self record_id access_token;
     sent self "metadata_record_workflow_state_transition" access_token
       {[ "id" := record_id; "workflow_state_id" := state ]}] ∧
  (∀ e, moved.1 = Exc e → run.1 = Exc e) ∧
  (∀ v data errors,
     moved.1 = Ret v →
     py_getitem v "data" = Ret data →
     py_getitem data "errors" = Ret errors →
     run.1 = Ret (MetadataWorkflowResult.mk (negb (py_truthy errors)) errors)) ∧
  (∀ v e,
     moved.1 = Ret v → py_getitem v "data" = Exc e → run.1 = Exc e) ∧
  (∀ result,
     run.1 = Ret result →
     (MetadataWorkflowResult.success result = true
      ↔ py_truthy (MetadataWorkflowResult.errors result) = false)).
Proof.
  intros Hget moved run. subst run.
  unfold change_state_of_metadata_record.
  pose proof (get_calls self institution_key record_id access_token w)
    as Hcalls.
  rewrite Hget in Hcalls. simpl in Hcalls.
  rewrite (run_bind_ret _ _ _ _ _ Hget). rewrite run_bind_lift.
  fold moved. simpl.
  split; [done |]. split.
  { subst moved. rewrite _call_ckan_run. simpl.
    by rewrite Hcalls, <- app_assoc. }
  split; [by intros e -> |]. split.
  { intros v data errors -> Hd He. simpl. rewrite Hd. simpl. by rewrite He. }
  split.
  { intros v e -> Hd. simpl. by rewrite Hd. }
  intros result. destruct moved.1 as [v|]; [|done]. simpl.
  destruct (py_getitem v "data") as [data|]; [|done]. simpl.
  destruct (py_getitem data "errors") as [errors|]; [|done]. simpl.
  intros [= <-]. simpl. by destruct (py_truthy errors).
Qed.

End SingleRecord.

(** ** The steps of a record create or update *)

Section RecordSteps.
Context `{Env : Environment}.

Lemma call_ckan_world self action access_token kwargs w r w1 :
  _call_ckan self action access_token kwargs w = (r, w1) →
  calls w1 = calls w ++ [sent self action access_token kwargs] ∧
  log w1 = log w.
Proof. rewrite _call_ckan_run. by intros [= _ <-]. Qed.

Lemma annotate_trace self record_id access_token key value w :
  let run := annotate self record_id access_token key value w in
  let kwargs := annotation_kwargs record_id key value in
  ∃ t l,
    calls run.2 = calls w ++ t ∧ log run.2 = log w ++ l ∧
    (t = [sent self "metadata_record_workflow_annotation_create"
            access_token kwargs]
     ∨ t = [sent self "metadata_record_workflow_annotation_create"
              access_token kwargs;
            sent self "metadata_record_workflow_annotation_update"
              access_token kwargs]) ∧
    (l = [] ∨ ∃ detail, l = [annotation_error record_id key detail]) ∧
    (run.1 = Ret tt
     ∨ ∃ cls msg,
         run.1 = Exc (Unhandled cls msg) ∧ failure_of cls = None ∧ l = []).
Proof.
  intros run kwargs. subst run.
  destruct (annotate_step self record_id access_token key value w)
    as [(w' & E & S) | (cls & msg & w' & E & Hcls & S)];
    rewrite E; simpl; fold kwargs in S.
  - inversion S as [? ? ? H1 | ? ? ? ? ? H1 H2 | ? ? ? ? ? ? H1 H2
                   | ? ? ? ? H1 Hs]; subst.
    + apply call_ckan_world in H1 as [Hc Hl].
      do 2 eexists. split; [rewrite Hc; reflexivity |].
      split; [rewrite Hl; symmetry; apply app_nil_r |].
      repeat split; by left.
    + apply call_ckan_world in H1 as [Hc Hl].
      apply call_ckan_world in H2 as [Hc' Hl'].
      do 2 eexists. split; [rewrite Hc', Hc, <- app_assoc; reflexivity |].
      split; [rewrite Hl', Hl; symmetry; apply app_nil_r |].
      split; [by right |]. split; by left.
    + apply call_ckan_world in H1 as [Hc Hl].
      apply call_ckan_world in H2 as [Hc' Hl'].
      do 2 eexists. simpl.
      split; [rewrite Hc', Hc, <- app_assoc; reflexivity |].
      split; [rewrite Hl', Hl; reflexivity |].
      split; [by right |]. split; [right; by eexists | by left].
    + apply call_ckan_world in H1 as [Hc Hl].
      do 2 eexists. simpl. split; [rewrite Hc; reflexivity |].
      split; [rewrite Hl; reflexivity |].
      split; [by left |]. split; [right; by eexists | by left].
  - inversion S as [? ? ? ? H1 | ? ? ? ? ? ? H1 H2]; subst.
    + apply call_ckan_world in H1 as [Hc Hl].
      exists [sent self "metadata_record_workflow_annotation_create"
                access_token kwargs], [].
      split; [exact Hc |].
      split; [rewrite Hl; symmetry; apply app_nil_r |].
      split; [by left |]. split; [by left |].
      right. by exists cls, msg.
    + apply call_ckan_world in H1 as [Hc Hl].
      apply call_ckan_world in H2 as [Hc' Hl'].
      exists [sent self "metadata_record_workflow_annotation_create"
                access_token kwargs;
              sent self "metadata_record_workflow_annotation_update"
                access_token kwargs], [].
      split; [by rewrite Hc', Hc, <- app_assoc |].
      split; [rewrite Hl', Hl; symmetry; apply app_nil_r |].
      split; [by right |]. split; [by left |].
      right. by exists cls, msg.
Qed.

Lemma annotate_bounds self record_id access_token key value w :
  let run := annotate self record_id access_token key value w in
  ∃ t l,
    calls run.2 = calls w ++ t ∧ log run.2 = log w ++ l ∧
    (1 ≤ List.length t ≤ 2)%nat ∧ Forall (annotation_call record_id) t ∧
    (List.length l ≤ 1)%nat ∧ Forall (λ r, log_level_of r = ERROR) l ∧
    (run.1 = Ret tt
     ∨ ∃ cls msg,
         run.1 = Exc (Unhandled cls msg) ∧ failure_of cls = None ∧ l = []).
Proof.
  intros run. subst run.
  destruct (annotate_trace self record_id access_token key value w)
    as (t & l & Hc & Hl & Ht & Hlog & Hres).
  exists t, l. split; [done |]. split; [done |].
  assert (annotation_kwargs record_id key value !! "id" = Some record_id)
    as Hid by apply lookup_insert_eq.
  assert (Forall (annotation_call record_id) t) as Ha.
  { destruct Ht as [-> | ->];
      repeat (apply Forall_cons; split); try apply Forall_nil; try done;
      unfold annotation_call; simpl; (split; [|done]);
      first [by left | by right]. }
  assert (Forall (λ r, log_level_of r = ERROR) l) as He.
  { destruct Hlog as [-> | [detail ->]];
      repeat (apply Forall_cons; split); try apply Forall_nil; done. }
  split; [destruct Ht as [-> | ->]; simpl; lia |].
  split; [done |].
  split; [destruct Hlog as [-> | [detail ->]]; simpl; lia |].
  by split.
Qed.

(** The result of setting the annotations: it returns, or raises an
    exception of neither family that one of its calls raised. *)
Lemma annotate_record_bounds (self : CKANAdapter)
    (record_id : pyval) (metadata_record : MetadataRecordIn.t)
    (access_token : string) (w : World) :
  let run :=
    _annotate_metadata_record self record_id metadata_record access_token w in
  ∃ t l,
    calls run.2 = calls w ++ t ∧ log run.2 = log w ++ l ∧
    (1 ≤ List.length t ≤ 6)%nat ∧ Forall (annotation_call record_id) t ∧
    (List.length l ≤ 3)%nat ∧ Forall (λ r, log_level_of r = ERROR) l ∧
    ((run.1 = Ret tt ∧ (3 ≤ List.length t)%nat)
     ∨ (∃ cls msg,
          run.1 = Exc (Unhandled cls msg) ∧ failure_of cls = None ∧
          (List.length l ≤ 2)%nat)).
Proof.
  intros run. subst run. unfold _annotate_metadata_record.
  set (v1 := PDict {[ "accepted" := _ ]}).
  set (v2 := PDict {[ "accepted" := _; "href" := _ ]}).
  set (v3 := PDict {[ "capture_method" := _ ]}).
  pose proof (annotate_bounds self record_id access_token
                "terms_and_conditions" v1 w) as B1.
  destruct (annotate self record_id access_token "terms_and_conditions" v1 w)
    as [r1 w1] eqn:E1.
  simpl in B1.
  destruct B1 as (t1 & l1 & Hc1 & Hl1 & Hn1 & Ha1 & Hm1 & He1 & Hr1).
  destruct Hr1 as [-> | (cls & msg & -> & Hcls & ->)]; cycle 1.
  { rewrite (run_bind_exc _ _ _ _ _ E1). simpl.
    exists t1, []. rewrite Hc1, Hl1. simpl.
    repeat split; try done; try lia.
    right. exists cls, msg. repeat split; try done. lia. }
  rewrite (run_bind_ret _ _ _ _ _ E1).
  pose proof (annotate_bounds self record_id access_token
                "data_agreement" v2 w1) as B2.
  destruct (annotate self record_id access_token "data_agreement" v2 w1)
    as [r2 w2] eqn:E2.
  simpl in B2.
  destruct B2 as (t2 & l2 & Hc2 & Hl2 & Hn2 & Ha2 & Hm2 & He2 & Hr2).
  destruct Hr2 as [-> | (cls & msg & -> & Hcls & ->)]; cycle 1.
  { rewrite (run_bind_exc _ _ _ _ _ E2). simpl.
    exists (t1 ++ t2), l1.
    rewrite Hc2, Hc1, Hl2, Hl1, app_nil_r, <- !app_assoc, !length_app.
    repeat split; try done; try lia; try by apply Forall_app_2.
    right. exists cls, msg. repeat split; try done. lia. }
  rewrite (run_bind_ret _ _ _ _ _ E2).
  pose proof (annotate_bounds self record_id access_token
                "capture_info" v3 w2) as B3.
  destruct (annotate self record_id access_token "capture_info" v3 w2)
    as [r3 w3] eqn:E3.
  simpl in B3. simpl.
  destruct B3 as (t3 & l3 & Hc3 & Hl3 & Hn3 & Ha3 & Hm3 & He3 & Hr3).
  exists (t1 ++ t2 ++ t3), (l1 ++ l2 ++ l3).
  rewrite Hc3, Hc2, Hc1, Hl3, Hl2, Hl1, <- !app_assoc, !length_app.
  repeat split; try done; try lia; try by repeat apply Forall_app_2.
  destruct Hr3 as [-> | (cls & msg & -> & Hcls & ->)].
  - left. split; [done | lia].
  - right. exists cls, msg. repeat split; try done. simpl. lia.
Qed.

(** X12: setting the annotations of a record makes between one and six
    calls, all of them annotation creates or updates for that record and
    the first of them the create of [terms_and_conditions], and logs at
    most three records, all of them errors.  It returns, after three calls
    or more, or it raises an exception of neither family that one of the
    calls raised; it never raises an [HTTPException]. *)
Theorem X12_annotations_make_one_to_six_calls (self : CKANAdapter)
    (record_id : pyval) (metadata_record : MetadataRecordIn.t)
    (access_token : string) (w : World) :
  let run :=
    _annotate_metadata_record self record_id metadata_record access_token w in
  (∃ t l,
     calls run.2 = calls w ++ t ∧ log run.2 = log w ++ l ∧
     (1 ≤ List.length t ≤ 6)%nat ∧ Forall (annotation_call record_id) t ∧
     (List.length l ≤ 3)%nat ∧ Forall (λ r, log_level_of r = ERROR) l ∧
     ((run.1 = Ret tt ∧ (3 ≤ List.length t)%nat)
      ∨ (∃ cls msg,
           run.1 = Exc (Unhandled cls msg) ∧
           isinstance cls RequestException = false ∧
           isinstance cls CKANAPIError = false ∧
           (List.length l ≤ 2)%nat)) ∧
     ∃ rest,
       t = sent self "metadata_record_workflow_annotation_create" access_token
             (annotation_kwargs record_id "terms_and_conditions"
                (PDict {[ "accepted" :=
                   MetadataRecordIn.terms_conditions_accepted
                     metadata_record ]})) :: rest) ∧
  (∀ status_code detail, run.1 ≠ Exc (HTTPException status_code detail)).
Proof.
  intros run. subst run.
  destruct (annotate_record_bounds self record_id metadata_record
              access_token w)
    as (t & l & Hc & Hl & Hn & Ha & Hm & He & Hres).
  split; cycle 1.
  { intros status_code detail.
    destruct Hres as [[-> _] | (cls & msg & -> & _)]; done. }
  exists t, l. do 6 (split; [done |]). split.
  { destruct Hres as [? | (cls & msg & Hr & Hcls & Hl2)]; [by left |].
    right. exists cls, msg. split; [done |]. by destruct cls. }
  set (v1 := PDict {[ "accepted" :=
                MetadataRecordIn.terms_conditions_accepted metadata_record ]}).
  destruct (annotate_trace self record_id access_token
              "terms_and_conditions" v1 w)
    as (t1 & l1 & Hc1 & _ & Ht1 & _).
  assert (∃ t',
            calls (_annotate_metadata_record self record_id metadata_record
                     access_token w).2
            = calls (annotate self record_id access_token
                       "terms_and_conditions" v1 w).2 ++ t') as [t' Hc'].
  { unfold _annotate_metadata_record. fold v1. rewrite run_bind.
    destruct (annotate self record_id access_token "terms_and_conditions"
                v1 w) as [[[] | e] w1]; simpl; [| exists []; by rewrite app_nil_r].
    match goal with
    | |- ∃ t', calls (?m w1).2 = _ =>
        assert (grows m) as Hg
          by (apply grows_bind; [apply grows_annotate | intros _];
              apply grows_annotate)
    end.
    destruct (Hg w1) as [[t' Ht'] _]. by exists t'. }
  rewrite Hc', Hc1, <- app_assoc in Hc.
  apply app_inv_head in Hc. subst t.
  destruct Ht1 as [-> | ->]; by eexists.
Qed.

Lemma convenience_skipped self institution_key record_id access_token
    ckan_record v w :
  py_getitem ckan_record "validated" = Ret v →
  py_truthy v = true →
  convenience_validation self institution_key record_id access_token
    ckan_record w
  = (_translate_from_ckan_record ckan_record, w).
Proof.
  intros Hv Htrue. unfold convenience_validation.
  rewrite run_bind. unfold lift at 1. rewrite Hv, Htrue. done.
Qed.

Lemma annotate_record_calls self record_id metadata_record access_token w :
  ∃ t,
    calls (_annotate_metadata_record self record_id metadata_record
             access_token w).2 = calls w ++ t ∧
    Forall (annotation_call record_id) t.
Proof.
  destruct (annotate_record_bounds self record_id
              metadata_record access_token w)
    as (t & l & Hc & _ & _ & Ha & _).
  by exists t.
Qed.

End RecordSteps.

Section RecordMutations.
Context `{Env : Environment}.

(** X13: when the record the backend returned for a create or an update
    is marked validated, no validation is run: after the primary call
    only annotation calls are made, and the record is translated as the
    backend gave it unless setting the annotations raised, in which case
    the operation raises the same exception. *)
Theorem X13_validated_record_is_not_validated_again (self : CKANAdapter)
    (institution_key record_id : pyval)
    (metadata_record : MetadataRecordIn.t) (access_token : string)
    (w : World) :
  (∀ ckan_record created_id v w1,
     _call_ckan self "metadata_record_create" access_token
       (create_kwargs institution_key metadata_record) w
       = (Ret ckan_record, w1) →
     py_getitem ckan_record "id" = Ret created_id →
     py_getitem ckan_record "validated" = Ret v →
     py_truthy v = true →
     let annotated :=
       _annotate_metadata_record self created_id metadata_record access_token
         w1 in
     let run :=
       create_or_update_metadata_record self institution_key metadata_record
         access_token w in
     run.1 = (annotated.1 ≫= λ _, _translate_from_ckan_record ckan_record) ∧
     run.2 = annotated.2 ∧
     ∃ t,
       calls run.2
       = calls w ++
         sent self "metadata_record_create" access_token
           (create_kwargs institution_key metadata_record) :: t ∧
       Forall (annotation_call created_id) t) ∧
  (∀ rec w0 ckan_record v w1,
     get_metadata_record self institution_key record_id access_token w
       = (Ret rec, w0) →
     _call_ckan self "metadata_record_update" access_token
       (update_kwargs institution_key record_id metadata_record) w0
       = (Ret ckan_record, w1) →
     py_getitem ckan_record "validated" = Ret v →
     py_truthy v = true →
     let annotated :=
       _annotate_metadata_record self record_id metadata_record access_token
         w1 in
     let run :=
       update_metadata_record self institution_key record_id metadata_record
         access_token w in
     run.1 = (annotated.1 ≫= λ _, _translate_from_ckan_record ckan_record) ∧
     run.2 = annotated.2 ∧
     ∃ t,
       calls run.2
       = calls w ++
         show_call self record_id access_token ::
         sent self "metadata_record_update" access_token
           (update_kwargs institution_key record_id metadata_record) :: t ∧
       Forall (annotation_call record_id) t).
Proof.
  assert (∀ rid ckan_record v w1,
    py_getitem ckan_record "validated" = Ret v →
    py_truthy v = true →
    let annotated :=
      _annotate_metadata_record self rid metadata_record access_token w1 in
    let run :=
      (_annotate_metadata_record self rid metadata_record access_token;;
       convenience_validation self institution_key rid access_token
         ckan_record) w1 in
    run.1 = (annotated.1 ≫= λ _, _translate_from_ckan_record ckan_record) ∧
    run.2 = annotated.2) as Htail.
  { intros rid ckan_record v w1 Hv Htrue annotated run. subst run.
    rewrite run_bind. fold annotated.
    destruct annotated as [[[] | e] w2]; [| done].
    by rewrite (convenience_skipped _ _ _ _ _ _ _ Hv Htrue). }
  split.
  - intros ckan_record created_id v w1 Hcall Hid Hv Htrue annotated run.
    subst run.
    rewrite (create_record_run _ _ _ _ _ _ _ _ Hcall Hid).
    destruct (Htail created_id ckan_record v w1 Hv Htrue) as [H1 H2].
    split; [exact H1 |]. split; [exact H2 |]. rewrite H2. subst annotated.
    destruct (annotate_record_calls self created_id metadata_record
                access_token w1) as (t & Hc & Ha).
    apply call_ckan_world in Hcall as [Hc1 _].
    exists t. split; [|done]. by rewrite Hc, Hc1, <- app_assoc.
  - intros rec w0 ckan_record v w1 Hget Hcall Hv Htrue annotated run.
    subst run.
    rewrite (update_record_run _ _ _ _ _ _ _ _ _ _ Hget Hcall).
    destruct (Htail record_id ckan_record v w1 Hv Htrue) as [H1 H2].
    split; [exact H1 |]. split; [exact H2 |]. rewrite H2. subst annotated.
    destruct (annotate_record_calls self record_id metadata_record
                access_token w1) as (t & Hc & Ha).
    apply call_ckan_world in Hcall as [Hc1 _].
    pose proof (get_calls self institution_key record_id access_token w)
      as Hc0.
    rewrite Hget in Hc0. simpl in Hc0.
    exists t. split; [|done]. by rewrite Hc, Hc1, Hc0, <- !app_assoc.
Qed.

(** X14: a create whose primary call fails, or returns something without
    an [id], raises at once: the create call is the only call made, so no
    annotation is set and nothing is validated.  An update whose primary
    call fails raises after the check and that call alone. *)
Theorem X14_failed_primary_call_stops_before_annotations
    (self : CKANAdapter) (institution_key record_id : pyval)
    (metadata_record : MetadataRecordIn.t) (access_token : string)
    (w : World) :
  let created :=
    _call_ckan self "metadata_record_create" access_token
      (create_kwargs institution_key metadata_record) w in
  let run :=
    create_or_update_metadata_record self institution_key metadata_record
      access_token w in
  (∀ e, created.1 = Exc e → run = (Exc e, created.2)) ∧
  (∀ v e,
     created.1 = Ret v → py_getitem v "id" = Exc e →
     run = (Exc e, created.2)) ∧
  calls created.2
  = calls w ++
    [sent self "metadata_record_create" access_token
       (create_kwargs institution_key metadata_record)] ∧
  (∀ rec w0 e,
     get_metadata_record self institution_key record_id access_token w
       = (Ret rec, w0) →
     let updated :=
       _call_ckan self "metadata_record_update" access_token
         (update_kwargs institution_key record_id metadata_record) w0 in
     updated.1 = Exc e →
     update_metadata_record self institution_key record_id metadata_record
       access_token w = (Exc e, updated.2) ∧
     calls updated.2
     = calls w ++
       [show_call self record_id access_token;
        sent self "metadata_record_update" access_token
          (update_kwargs institution_key record_id metadata_record)]).
Proof.
  intros created run. subst run.
  unfold create_or_update_metadata_record.
  fold (create_kwargs institution_key metadata_record).
  rewrite run_bind. fold created.
  split; [|split; [|split]].
  - intros e He. destruct created as [r w1]. simpl in He. by subst r.
  - intros v e Hv He. destruct created as [r w1]. simpl in Hv. subst r.
    rewrite run_bind. unfold lift at 1. by rewrite He.
  - subst created. by rewrite _call_ckan_run.
  - intros rec w0 e Hget He.
    set (updated := _call_ckan self "metadata_record_update" _ _ w0) in *.
    unfold update_metadata_record.
    rewrite (run_bind_ret _ _ _ _ _ Hget).
    fold (create_kwargs institution_key metadata_record).
    fold (update_kwargs institution_key record_id metadata_record).
    rewrite run_bind. fold updated.
    pose proof (get_calls self institution_key record_id access_token w)
      as Hc0.
    rewrite Hget in Hc0. simpl in Hc0.
    assert (calls updated.2
            = calls w0 ++
              [sent self "metadata_record_update" access_token
                 (update_kwargs institution_key record_id metadata_record)])
      as Hc by (subst updated; by rewrite _call_ckan_run).
    split.
    + destruct updated as [r w1]. simpl in He. by subst r.
    + by rewrite Hc, Hc0, <- app_assoc.
Qed.

End RecordMutations.

(** ** More on keys and the caller's objects *)


Lemma append_assoc_r (a b c : string) : (a +:+ b) +:+ c = a +:+ b +:+ c.
Proof.
  induction a as [| x a IH]; [done | exact (f_equal (String x) IH)].
Qed.



Lemma prefix_append (needle rest : string) :
  String.prefix needle (needle +:+ rest) = true.
Proof.
  induction needle as [| c n IH]; [by destruct rest |].
  change (String.prefix (String c n) (String c (n +:+ rest)) = true).
  simpl. by destruct (ascii_dec c c).
Qed.

Lemma str_in_append (before needle after : string) :
  str_in needle (before +:+ needle +:+ after) = true.
Proof.
  induction before as [| c b IH].
  - change ("" +:+ needle +:+ after) with (needle +:+ after).
    pose proof (prefix_append needle after) as H.
    destruct (needle +:+ after) as [| a h].
    + change (String.prefix needle "" || false = true). by rewrite H.
    + change (String.prefix needle (String a h) || str_in needle h = true).
      by rewrite H.
  - change (String c b +:+ needle +:+ after)
      with (String c (b +:+ needle +:+ after)).
    change (str_in needle (String c (b +:+ needle +:+ after)))
      with (String.prefix needle (String c (b +:+ needle +:+ after))
            || str_in needle (b +:+ needle +:+ after)).
    rewrite IH. apply orb_true_r.
Qed.

Section ObjectKeys.
Context `{Env : Environment}.

Lemma create_collection_objects self institution_key l access_token w c k :
  collections w !! l = Some c →
  CollectionIn.key c = PStr k →
  collections (create_collection self institution_key l access_token w).2
  = <[l := collection_with_key (normalize COLLECTION_SUFFIX k) c]>
      (collections w).
Proof.
  intros Hl Hk. rewrite (create_collection_run _ _ _ _ _ _ _ Hl Hk).
  match goal with
  | |- context [(?m ?w0).2] =>
      assert (keeps_objects m) as Hkeeps by solve_keeps;
      destruct (Hkeeps w0) as [-> _]
  end.
  done.
Qed.



(** X16: calling [create_collection] again with the object a first call
    has left behind sends the same create call as the first time and does
    not change the object again. *)
Theorem X16_second_create_sends_the_same_key (self : CKANAdapter)
    (institution_key : pyval) (access_token : string) (w : World)
    (l : loc) (c : CollectionIn.t) (k : string) (keys : list pyval) :
  collections w !! l = Some c → CollectionIn.key c = PStr k →
  py_iter (CollectionIn.project_keys c) = Ret keys →
  let create :=
    sent self "metadata_collection_create" access_token
      (collection_kwargs institution_key (normalize COLLECTION_SUFFIX k) c
         keys) in
  let w' := (create_collection self institution_key l access_token w).2 in
  let again := create_collection self institution_key l access_token w' in
  calls w' = calls w ++ [create] ∧
  calls again.2 = calls w' ++ [create] ∧
  collections again.2 = collections w'.
Proof.
  intros Hl Hk Hkeys create w' again.
  set (c' := collection_with_key (normalize COLLECTION_SUFFIX k) c).
  assert (∀ w0 c0 k0,
            collections w0 !! l = Some c0 → CollectionIn.key c0 = PStr k0 →
            py_iter (CollectionIn.project_keys c0) = Ret keys →
            calls (create_collection self institution_key l access_token
                     w0).2
            = calls w0 ++
              [sent self "metadata_collection_create" access_token
                 (collection_kwargs institution_key
                    (normalize COLLECTION_SUFFIX k0) c0 keys)]) as Hcalls.
  { intros w0 c0 k0 H0 Hk0 Hkeys0.
    rewrite (create_collection_run _ _ _ _ _ _ _ H0 Hk0).
    rewrite run_bind. unfold lift at 1.
    rewrite (translate_to_collection _ _ _ _ Hkeys0).
    rewrite run_bind_lift. simpl. by rewrite _call_ckan_run. }
  assert (collections w' !! l = Some c') as Hl'.
  { subst w'. rewrite (create_collection_objects _ _ _ _ _ _ _ Hl Hk).
    apply lookup_insert_eq. }
  split; [by apply Hcalls |]. split.
  - subst again. rewrite (Hcalls w' c' (normalize COLLECTION_SUFFIX k));
      [|done..].
    by rewrite normalize_idempotent.
  - subst again.
    rewrite (create_collection_objects _ _ _ _ w' c'
               (normalize COLLECTION_SUFFIX k) Hl' eq_refl).
    rewrite normalize_idempotent. by apply insert_id.
Qed.

(** X17: the duplicate-name text is recognised wherever it stands in the
    message of the backend: a project create that fails with a validation
    error or another error of the API family whose message contains it is
    followed by the update call, while an authorization, not-found or
    transport failure with the same message is raised without an update,
    and so is an exception of neither family, which is raised as it is. *)
Theorem X17_duplicate_text_is_found_inside_the_message (self : CKANAdapter)
    (l : loc) (access_token : string) (w : World) (p : Project.t)
    (k : string) (cls : exc_class) (before after : string) :
  projects w !! l = Some p →
  Project.key p = PStr k →
  let k' := normalize PROJECT_SUFFIX k in
  let input_dict := project_kwargs k' p in
  let create := sent self "infrastructure_create" access_token input_dict in
  let update :=
    sent self "infrastructure_update" access_token
      (<["id" := PStr k']> input_dict) in
  let msg := before +:+ "Group name already exists in database" +:+ after in
  (call_action (ckan_server_url self) "infrastructure_create" input_dict
     ("Bearer " +:+ access_token)
     (negb (String.eqb (SERVER_ENV self) "development")) (backend w)).1
  = Raises cls msg →
  let run := create_or_update_project self l access_token w in
  match failure_of cls with
  | Some f =>
      (status_of f = 400%Z →
       calls run.2 = calls w ++ [create; update]) ∧
      (status_of f ≠ 400%Z →
       calls run.2 = calls w ++ [create] ∧
       run.1 = Exc (HTTPException (status_of f) (detail_prefix f +:+ msg)))
  | None =>
      calls run.2 = calls w ++ [create] ∧
      run.1 = Exc (Unhandled cls msg)
  end.
Proof.
  intros Hl Hk k' input_dict create update msg Hanswer run. subst run.
  rewrite (project_upsert_cases self l access_token w p k Hl Hk).
  fold k' input_dict. simpl.
  set (first := _call_ckan self "infrastructure_create" _ _ _).
  assert (first.1 = classified (Raises cls msg)) as Hfirst.
  { subst first. rewrite _call_ckan_run. simpl. by rewrite Hanswer. }
  assert (calls first.2 = calls w ++ [create]) as Hcalls.
  { subst first. by rewrite _call_ckan_run. }
  simpl in Hfirst. rewrite Hfirst.
  destruct (failure_of cls) as [f |]; [| by split].
  assert (str_in "Group name already exists in database"
            (detail_prefix f +:+ msg) = true)
    as Hin.
  { pose proof (str_in_append (detail_prefix f +:+ before)
                  "Group name already exists in database" after) as H.
    subst msg. by rewrite append_assoc_r in H. }
  split.
  - intros ->. simpl. rewrite Hin. simpl.
    rewrite _call_ckan_run. simpl. by rewrite Hcalls, <- app_assoc.
  - intros Hne.
    replace (status_of f =? 400)%Z with false
      by (symmetry; by apply Z.eqb_neq).
    simpl. by split.
Qed.

End ObjectKeys.

(** ** More on merged validation results *)

Lemma last_write_wins_None (fragments : list (gmap string pyval))
    (k : string) :
  last_write_wins fragments k = None
  ↔ Forall (λ f, f !! k = None) fragments.
Proof.
  induction fragments as [| f rest IH]; simpl.
  - split; [constructor | done].
  - destruct (last_write_wins rest k) eqn:E.
    + split; [done |]. intros H. inversion H as [| ? ? _ Hrest]; subst.
      apply IH in Hrest. done.
    + split.
      * intros Hf. constructor; [done | by apply IH].
      * intros H. by inversion H.
Qed.

Lemma merged_empty (fragments : list (gmap string pyval)) :
  merged fragments = ∅ ↔ Forall (λ f, f = ∅) fragments.
Proof.
  split.
  - intros H. apply Forall_forall. intros f Hf. apply map_empty. intros k.
    assert (last_write_wins fragments k = None) as Hk
      by (by rewrite <- merged_lookup, H).
    apply last_write_wins_None in Hk.
    by apply (proj1 (Forall_forall _ _) Hk f).
  - intros H. apply map_empty. intros k. rewrite merged_lookup.
    apply last_write_wins_None. eapply Forall_impl; [exact H |].
    by intros f ->.
Qed.

Lemma merged_reports (fragments : list (gmap string pyval)) (k : string) :
  is_Some (merged fragments !! k)
  ↔ ∃ f, f ∈ fragments ∧ is_Some (f !! k).
Proof.
  rewrite merged_lookup. split.
  - intros Hsome. apply not_eq_None_Some in Hsome.
    rewrite last_write_wins_None in Hsome.
    apply not_Forall_Exists in Hsome; [|intros f; apply _].
    apply Exists_exists in Hsome as (f & Hf & Hk).
    exists f. split; [done |]. by apply not_eq_None_Some.
  - intros (f & Hf & Hk). apply not_eq_None_Some.
    rewrite last_write_wins_None. intros Hall.
    apply (proj1 (Forall_forall _ _) Hall) in Hf.
    rewrite Hf in Hk. by destruct Hk.
Qed.

Section ValidationResults.
Context `{Env : Environment}.

(** X18: a validation that returns reports every key that some result
    fragment reports and no other, and it is a success exactly when every
    fragment's error mapping is empty; with no fragments at all it is a
    success with no errors. *)
Theorem X18_validation_keeps_every_reported_key (self : CKANAdapter)
    (institution_key record_id : pyval) (access_token : string)
    (w w' : World) (res : MetadataValidationResult.t) :
  validate_metadata_record self institution_key record_id access_token w
    = (Ret res, w') →
  ∃ w0 v data results items fragments,
    _call_ckan self "metadata_record_validate" access_token
      {[ "id" := record_id ]} w0 = (Ret v, w') ∧
    py_getitem v "data" = Ret data ∧
    py_getitem data "results" = Ret results ∧
    py_iter results = Ret items ∧
    Forall2 fragment_of items fragments ∧
    (∀ k, is_Some (MetadataValidationResult.errors res !! k)
          ↔ ∃ f, f ∈ fragments ∧ is_Some (f !! k)) ∧
    (MetadataValidationResult.success res = true
     ↔ Forall (λ f, f = ∅) fragments) ∧
    (items = [] →
     res = MetadataValidationResult.mk true ∅).
Proof.
  intros Hval.
  destruct (validate_returns _ _ _ _ _ _ _ Hval)
    as (rec & w0 & v & data & results & items & ve
        & _ & Hcall & Hd & Hr & Hi & Hm & ->).
  destruct (merge_errors_fragments _ _ _ Hm) as (fragments & Hall & ->).
  exists w0, v, data, results, items, fragments. simpl.
  fold (merged fragments).
  do 5 (split; [done |]). split; [|split].
  - intros k. apply merged_reports.
  - rewrite negb_involutive, <- merged_empty. apply bool_decide_eq_true.
  - intros ->. inversion Hall; subst. done.
Qed.

End ValidationResults.

Section MalformedObjects.
Context `{Env : Environment}.

(** X19: an object whose key is not a string makes [create_collection]
    and [create_or_update_project] raise [AttributeError] with nothing
    called and nothing changed.  A collection whose project keys cannot
    be iterated makes [create_collection] raise without calling the
    backend, but only after its key has been rewritten. *)
Theorem X19_malformed_object_is_rejected_before_any_call
    (self : CKANAdapter) (institution_key : pyval) (access_token : string)
    (w : World) :
  (∀ l c,
     collections w !! l = Some c →
     (∀ k, CollectionIn.key c ≠ PStr k) →
     create_collection self institution_key l access_token w
     = (Exc AttributeError, w)) ∧
  (∀ l p,
     projects w !! l = Some p →
     (∀ k, Project.key p ≠ PStr k) →
     create_or_update_project self l access_token w
     = (Exc AttributeError, w)) ∧
  (∀ l c k e,
     collections w !! l = Some c →
     CollectionIn.key c = PStr k →
     py_iter (CollectionIn.project_keys c) = Exc e →
     create_collection self institution_key l access_token w
     = (Exc e,
        collections_updated l
          (collection_with_key (normalize COLLECTION_SUFFIX k) c) w)).
Proof.
  split; [|split].
  - intros l c Hl Hk. unfold create_collection.
    rewrite run_bind. unfold load_collection at 1. rewrite Hl.
    rewrite run_bind.
    destruct (CollectionIn.key c) as [| | |k| |]; try done.
    by destruct (Hk k).
  - intros l p Hl Hk. unfold create_or_update_project.
    rewrite run_bind. unfold load_project at 1. rewrite Hl.
    rewrite run_bind.
    destruct (Project.key p) as [| | |k| |]; try done.
    by destruct (Hk k).
  - intros l c k e Hl Hk He.
    rewrite (create_collection_run _ _ _ _ _ _ _ Hl Hk).
    rewrite run_bind. unfold lift at 1.
    unfold _translate_to_ckan_collection. simpl. by rewrite He.
Qed.

End MalformedObjects.

Section LateFailures.
Context `{Env : Environment}.

Lemma convenience_without_flag self institution_key record_id access_token
    ckan_record e w :
  py_getitem ckan_record "validated" = Exc e →
  convenience_validation self institution_key record_id access_token
    ckan_record w = (Exc e, w).
Proof.
  intros He. unfold convenience_validation.
  rewrite run_bind. unfold lift at 1. by rewrite He.
Qed.

(** X20: a create or an update whose primary call returns something that
    has no [validated] entry raises the lookup's exception only after the
    annotations have been set: at least three annotation calls have been
    made for the record by then, and no validation call.  When setting the
    annotations raised instead, that exception is the one raised, and the
    calls made after the primary call are annotation calls all the same. *)
Theorem X20_missing_flag_raises_after_the_annotations (self : CKANAdapter)
    (institution_key record_id : pyval)
    (metadata_record : MetadataRecordIn.t) (access_token : string)
    (w : World) :
  (∀ ckan_record created_id e w1,
     _call_ckan self "metadata_record_create" access_token
       (create_kwargs institution_key metadata_record) w
       = (Ret ckan_record, w1) →
     py_getitem ckan_record "id" = Ret created_id →
     py_getitem ckan_record "validated" = Exc e →
     let annotated :=
       _annotate_metadata_record self created_id metadata_record access_token
         w1 in
     let run :=
       create_or_update_metadata_record self institution_key metadata_record
         access_token w in
     run = (annotated.1 ≫= (λ _, Exc e), annotated.2) ∧
     ∃ t,
       calls run.2 = calls w1 ++ t ∧
       Forall (annotation_call created_id) t ∧
       (annotated.1 = Ret tt →
        run.1 = Exc e ∧ (3 ≤ List.length t)%nat)) ∧
  (∀ rec w0 ckan_record e w1,
     get_metadata_record self institution_key record_id access_token w
       = (Ret rec, w0) →
     _call_ckan self "metadata_record_update" access_token
       (update_kwargs institution_key record_id metadata_record) w0
       = (Ret ckan_record, w1) →
     py_getitem ckan_record "validated" = Exc e →
     let annotated :=
       _annotate_metadata_record self record_id metadata_record access_token
         w1 in
     let run :=
       update_metadata_record self institution_key record_id metadata_record
         access_token w in
     run = (annotated.1 ≫= (λ _, Exc e), annotated.2) ∧
     ∃ t,
       calls run.2 = calls w1 ++ t ∧
       Forall (annotation_call record_id) t ∧
       (annotated.1 = Ret tt →
        run.1 = Exc e ∧ (3 ≤ List.length t)%nat)).
Proof.
  assert (∀ rid ckan_record e w1,
    py_getitem ckan_record "validated" = Exc e →
    let annotated :=
      _annotate_metadata_record self rid metadata_record access_token w1 in
    let run :=
      (_annotate_metadata_record self rid metadata_record access_token;;
       convenience_validation self institution_key rid access_token
         ckan_record) w1 in
    run = (annotated.1 ≫= (λ _, Exc e), annotated.2) ∧
    ∃ t,
      calls run.2 = calls w1 ++ t ∧
      Forall (annotation_call rid) t ∧
      (annotated.1 = Ret tt → run.1 = Exc e ∧ (3 ≤ List.length t)%nat))
    as Htail.
  { intros rid ckan_record e w1 He annotated run.
    assert (run = (annotated.1 ≫= (λ _, Exc e), annotated.2)) as Hrun.
    { subst run. rewrite run_bind. fold annotated.
      destruct annotated as [[[] | e'] w2]; [| done].
      by rewrite (convenience_without_flag _ _ _ _ _ _ _ He). }
    split; [exact Hrun |]. rewrite Hrun. simpl. subst annotated.
    destruct (annotate_record_bounds self rid metadata_record access_token w1)
      as (t & l & Hc & _ & Hn & Ha & _ & _ & Hres).
    exists t. split; [done |]. split; [done |].
    intros Hret. rewrite Hret. split; [done |].
    destruct Hres as [[_ H3] | (cls & msg & Hr & _)]; [done |].
    by rewrite Hret in Hr. }
  split.
  - intros ckan_record created_id e w1 Hcall Hid He annotated run. subst run.
    rewrite (create_record_run _ _ _ _ _ _ _ _ Hcall Hid).
    by apply Htail.
  - intros rec w0 ckan_record e w1 Hget Hcall He annotated run. subst run.
    rewrite (update_record_run _ _ _ _ _ _ _ _ _ _ Hget Hcall).
    by apply Htail.
Qed.

End LateFailures.

(** * The properties at work on the scripted server *)

#[local] Existing Instance Sample.env.
#[local] Open Scope string_scope.



(** A project whose name is taken: one create, then one update. *)
Lemma C2_witness :
  let w :=
    Sample.world_with_objects [Sample.name_taken; Returns Sample.ckan_project] in
  let input_dict : gmap string pyval :=
    {[ "name" := PStr "saeon-project"; "title" := PStr "SAEON";
       "description" := PStr "Observation network" ]} in
  let run := create_or_update_project Sample.adapter 1%positive "tok" w in
  projects w !! 1%positive = Some Sample.project_in ∧
  Project.key Sample.project_in = PStr "saeon" ∧
  run.1 = Ret (Project.mk (PStr "saeon-project") (PStr "SAEON")
                 (PStr "Observation network")) ∧
  calls run.2
  = [sent Sample.adapter "infrastructure_create" "tok" input_dict;
     sent Sample.adapter "infrastructure_update" "tok"
       (<["id" := PStr "saeon-project"]> input_dict)].
Proof.
  intros w input_dict run.
  destruct (C2_project_upsert_falls_back_to_update Sample.adapter 1%positive
              "tok" w Sample.project_in "saeon" eq_refl eq_refl)
    as [Hrun Hcalls].
  do 2 (split; [reflexivity |]).
  split.
  - exact (f_equal fst Hrun).
  - exact Hcalls.
Defined.



(** A delete of a record the backend does not know. *)
Lemma C4_witness :
  let w := Sample.world [Raises NotFound "Not found"] in
  let e := HTTPException 404 "CKAN resource not found: Not found" in
  let w1 :=
    (get_metadata_record Sample.adapter (PStr "inst-a") (PStr "rec-1") "tok"
       w).2 in
  get_metadata_record Sample.adapter (PStr "inst-a") (PStr "rec-1") "tok" w
    = (Exc e, w1) ∧
  delete_metadata_record Sample.adapter (PStr "inst-a") (PStr "rec-1") "tok" w
    = (Exc e, w1) ∧
  calls w1 = [show_call Sample.adapter (PStr "rec-1") "tok"].
Proof.
  intros w e w1.
  destruct (C4_failed_check_stops_the_operation Sample.adapter
              (PStr "inst-a") (PStr "rec-1") "tok" w)
    as (_ & _ & _ & _ & Hfail).
  destruct (Hfail e w1 eq_refl) as (_ & Hdelete & _ & _ & Hcalls).
  split; [reflexivity |]. split; [exact Hdelete | exact Hcalls].
Defined.

(** A record of another institution. *)
Lemma C5_witness :
  let record := PDict (Sample.ckan_record "inst-b" "rec-1" true) in
  let w := Sample.world [Returns record] in
  let shown :=
    _call_ckan Sample.adapter "metadata_record_show" "tok"
      {[ "id" := PStr "rec-1"; "deserialize_json" := PBool true ]} w in
  shown.1 = Ret record ∧
  py_getitem record "state" = Ret (PStr "active") ∧
  py_getitem record "owner_org" = Ret (PStr "inst-b") ∧
  py_ne (PStr "inst-b") (PStr "inst-a") = true ∧
  get_metadata_record Sample.adapter (PStr "inst-a") (PStr "rec-1") "tok" w
  = (Exc (HTTPException 404 "CKAN resource not found"), shown.2).
Proof.
  intros record w shown.
  assert (py_ne (PStr "inst-b") (PStr "inst-a") = true) as Hne
    by (vm_compute; reflexivity).
  do 3 (split; [reflexivity |]). split; [exact Hne |].
  destruct (C5_hidden_record_is_not_found Sample.adapter (PStr "inst-a")
              (PStr "rec-1") "tok" w) as [Hhidden _].
  apply (Hhidden record (PStr "active") eq_refl eq_refl).
  right. exists (PStr "inst-b"). split; [reflexivity | exact Hne].
Defined.

(** The detail of the 404 tells a record of another institution from a
    record the backend does not have. *)
Lemma C5_mismatch_is_told_apart_from_absence :
  let mismatch :=
    (get_metadata_record Sample.adapter (PStr "inst-a") (PStr "rec-1") "tok"
       (Sample.world
          [Returns (PDict (Sample.ckan_record "inst-b" "rec-1" true))])).1 in
  let absent :=
    (get_metadata_record Sample.adapter (PStr "inst-a") (PStr "rec-1") "tok"
       (Sample.world [Raises NotFound "Not found"])).1 in
  mismatch = Exc (HTTPException 404 "CKAN resource not found") ∧
  absent = Exc (HTTPException 404 "CKAN resource not found: Not found") ∧
  mismatch ≠ absent.
Proof.
  intros mismatch absent.
  assert (mismatch = Exc (HTTPException 404 "CKAN resource not found"))
    as Hm by (vm_compute; reflexivity).
  assert (absent
          = Exc (HTTPException 404 "CKAN resource not found: Not found"))
    as Ha by (vm_compute; reflexivity).
  split; [exact Hm |]. split; [exact Ha |].
  rewrite Hm, Ha. discriminate.
Qed.



(** Two fragments that both report on [title]: the later one is kept. *)
Lemma C7_witness :
  let w :=
    Sample.world
      [Returns (PDict (Sample.ckan_record "inst-a" "my-pid" false));
       Returns Sample.validation_activity] in
  let run :=
    validate_metadata_record Sample.adapter (PStr "inst-a") (PStr "rec-1")
      "tok" w in
  run = (Ret Sample.validation_result, run.2) ∧
  MetadataValidationResult.errors Sample.validation_result !! "title"
  = Some (PStr "not unique") ∧
  ∃ fragments,
    MetadataValidationResult.errors Sample.validation_result
    = merged fragments ∧
    (∀ k, MetadataValidationResult.errors Sample.validation_result !! k
          = last_write_wins fragments k) ∧
    (MetadataValidationResult.success Sample.validation_result = true
     ↔ MetadataValidationResult.errors Sample.validation_result = ∅).
Proof.
  intros w run.
  destruct (C7_validation_errors_merge_last_write_wins Sample.adapter
              (PStr "inst-a") (PStr "rec-1") "tok" w run.2
              Sample.validation_result eq_refl)
    as (w0 & v & data & results & items & fragments
        & _ & _ & _ & _ & _ & Hmerged & Hlast & Hsuccess).
  do 2 (split; [reflexivity |]).
  exists fragments.
  split; [exact Hmerged |]. split; [exact Hlast | exact Hsuccess].
Defined.




(** * The further properties at work *)

Lemma X1_witness :
  _translate_from_ckan_project (PDict Sample.ckan_group)
    = Ret (Project.mk (PStr "saeon-project") (PStr "SAEON")
             (PStr "Observation network")) ∧
  _translate_to_ckan_project
    (Project.mk (PStr "saeon-project") (PStr "SAEON")
       (PStr "Observation network")) ⊆ Sample.ckan_group.
Proof.
  split; [reflexivity |].
  exact (proj2 (X1_project_translation_round_trip Sample.project_in)
           Sample.ckan_group _ eq_refl).
Defined.

Lemma X2_witness :
  py_iter (CollectionIn.project_keys Sample.collection_in)
    = Ret [PStr "saeon-project"] ∧
  ∃ d,
    _translate_to_ckan_collection (PStr "inst-a") Sample.collection_in
      = Ret d ∧
    _translate_from_ckan_collection (PDict d)
    = Ret (Collection.mk (PStr "inst-a") (PStr "marine") (PStr "Marine data")
             (PStr "All of it") PNone [PStr "saeon-project"]).
Proof.
  split; [reflexivity |].
  exact (X2_collection_translation_round_trip (PStr "inst-a")
           Sample.collection_in [PStr "saeon-project"] eq_refl).
Defined.

Lemma X3_witness :
  _translate_from_ckan_record
    (PDict (delete "doi" (Sample.ckan_record "inst-a" "my-pid" true)))
  = Exc (KeyError "doi").
Proof.
  exact (proj1 (X3_record_translation_needs_its_ten_keys
                  (delete "doi" (Sample.ckan_record "inst-a" "my-pid" true)))).
Defined.

(** A search error is reported as 400 with its message; the exception of
    a server that does not answer as the CKAN API does comes out as it
    is. *)
Lemma X4_witness :
  let failed :=
    _call_ckan Sample.adapter "metadata_record_list" "tok" ∅
      (Sample.world [Raises SearchError "bad query"]) in
  let foreign :=
    _call_ckan Sample.adapter "metadata_record_list" "tok" ∅
      (Sample.world [Sample.incompatible]) in
  failed.1 = Exc (HTTPException 400 "CKAN error: bad query") ∧
  foreign.1
  = Exc (Unhandled ServerIncompatibleError "unexpected response") ∧
  (∃ cls msg,
     Raises SearchError "bad query" = Raises cls msg ∧
     if isinstance cls RequestException || isinstance cls CKANAPIError
     then
       ∃ status_code detail,
         HTTPException 400 "CKAN error: bad query"
         = HTTPException status_code detail ∧
         status_code ∈ reported_statuses ∧
         detail ≠ "" ∧
         endswith detail msg = true
     else HTTPException 400 "CKAN error: bad query" = Unhandled cls msg) ∧
  (∃ cls msg,
     Sample.incompatible = Raises cls msg ∧
     if isinstance cls RequestException || isinstance cls CKANAPIError
     then
       ∃ status_code detail,
         Unhandled ServerIncompatibleError "unexpected response"
         = HTTPException status_code detail ∧
         status_code ∈ reported_statuses ∧
         detail ≠ "" ∧
         endswith detail msg = true
     else
       Unhandled ServerIncompatibleError "unexpected response"
       = Unhandled cls msg).
Proof.
  intros failed foreign. do 2 (split; [reflexivity |]). split.
  - exact (X4_call_ckan_raises_classified_or_foreign_errors Sample.adapter
             "metadata_record_list" "tok" ∅
             (Sample.world [Raises SearchError "bad query"]) _ eq_refl).
  - exact (X4_call_ckan_raises_classified_or_foreign_errors Sample.adapter
             "metadata_record_list" "tok" ∅
             (Sample.world [Sample.incompatible]) _ eq_refl).
Defined.

(** A listing that contains a deleted record of another institution. *)
Lemma X7_witness :
  let items :=
    [PDict (Sample.ckan_record "inst-a" "my-pid" true);
     PDict Sample.deleted_record] in
  let w := Sample.world [Returns (PList items)] in
  let pagination := Pagination.mk (PInt 0) (PInt 10) in
  let answer :=
    _call_ckan Sample.adapter "metadata_record_list" "tok"
      {[ "owner_org" := PStr "inst-a";
         "offset" := Pagination.offset pagination;
         "limit" := Pagination.limit pagination;
         "all_fields" := PBool true;
         "deserialize_json" := PBool true ]} w in
  answer.1 = Ret (PList items) ∧
  (list_metadata_records Sample.adapter (PStr "inst-a") pagination "tok" w).1
  = Ret [Sample.record_out "inst-a" (PStr "my-pid") true;
         MetadataRecord.mk (PStr "inst-b") (PStr "coll-1") (PStr "datacite")
           (PDict {[ "title" := PStr "t" ]}) (PStr "rec-1") (PStr "rec-2")
           PNone (PBool true) (PDict ∅) (PStr "draft")].
Proof.
  intros items w pagination answer. split; [reflexivity |].
  destruct (X7_listing_records_translates_every_item Sample.adapter
              (PStr "inst-a") pagination "tok" w)
    as (_ & _ & _ & Hitems).
  destruct (Hitems items eq_refl) as [Hret _].
  apply Hret. repeat constructor.
Defined.

Lemma X8_witness :
  let w := Sample.world [Returns (PList [PDict Sample.ckan_group])] in
  (_call_ckan Sample.adapter "infrastructure_list" "tok"
     {[ "all_fields" := PBool true ]} w).1
  = Ret (PList [PDict Sample.ckan_group]) ∧
  (list_projects Sample.adapter "tok" w).1
  = Ret [Project.mk (PStr "saeon-project") (PStr "SAEON")
           (PStr "Observation network")].
Proof.
  intros w. split; [reflexivity |].
  destruct (X8_listing_collections_and_projects Sample.adapter
              (PStr "inst-a") "tok" w)
    as (_ & _ & _ & _ & Hitems).
  destruct (Hitems [PDict Sample.ckan_group] eq_refl) as [Hret _].
  apply Hret. repeat constructor.
Defined.

Lemma X9_witness :
  let record := PDict (Sample.ckan_record "inst-a" "my-pid" true) in
  let w := Sample.world [Returns record] in
  let shown :=
    _call_ckan Sample.adapter "metadata_record_show" "tok"
      {[ "id" := PStr "rec-1"; "deserialize_json" := PBool true ]} w in
  shown.1 = Ret record ∧
  get_metadata_record Sample.adapter (PStr "inst-a") (PStr "rec-1") "tok" w
  = (Ret (Sample.record_out "inst-a" (PStr "my-pid") true), shown.2).
Proof.
  intros record w shown. split; [reflexivity |].
  destruct (X9_get_translates_a_visible_record Sample.adapter (PStr "inst-a")
              (PStr "rec-1") "tok" w record eq_refl) as [Hvisible _].
  apply (Hvisible (PStr "active") (PStr "inst-a")); try reflexivity;
    vm_compute; reflexivity.
Defined.

Lemma X10_witness :
  let record := PDict (Sample.ckan_record "inst-a" "my-pid" true) in
  let w := Sample.world [Returns record; Returns PNone] in
  let w0 :=
    (get_metadata_record Sample.adapter (PStr "inst-a") (PStr "rec-1") "tok"
       w).2 in
  let run :=
    delete_metadata_record Sample.adapter (PStr "inst-a") (PStr "rec-1")
      "tok" w in
  get_metadata_record Sample.adapter (PStr "inst-a") (PStr "rec-1") "tok" w
    = (Ret (Sample.record_out "inst-a" (PStr "my-pid") true), w0) ∧
  run.1 = Ret true ∧
  calls run.2
  = [show_call Sample.adapter (PStr "rec-1") "tok";
     sent Sample.adapter "metadata_record_delete" "tok"
       {[ "id" := PStr "rec-1" ]}].
Proof.
  intros record w w0 run. split; [reflexivity |].
  destruct (X10_delete_reports_true_or_raises Sample.adapter (PStr "inst-a")
              (PStr "rec-1") "tok" w) as [_ Hdelete].
  destruct (Hdelete _ w0 eq_refl) as [Hrun Hcalls].
  split; [exact (f_equal fst Hrun) | exact Hcalls].
Defined.

Lemma X11_witness :
  let record := PDict (Sample.ckan_record "inst-a" "my-pid" true) in
  let w := Sample.world [Returns record; Returns Sample.workflow_activity] in
  let w0 :=
    (get_metadata_record Sample.adapter (PStr "inst-a") (PStr "rec-1") "tok"
       w).2 in
  get_metadata_record Sample.adapter (PStr "inst-a") (PStr "rec-1") "tok" w
    = (Ret (Sample.record_out "inst-a" (PStr "my-pid") true), w0) ∧
  (change_state_of_metadata_record Sample.adapter (PStr "inst-a")
     (PStr "rec-1") (PStr "published") "tok" w).1
  = Ret (MetadataWorkflowResult.mk true (PDict ∅)).
Proof.
  intros record w w0. split; [reflexivity |].
  destruct (X11_transition_succeeds_iff_no_errors Sample.adapter
              (PStr "inst-a") (PStr "rec-1") (PStr "published") "tok" w w0
              _ eq_refl)
    as (_ & _ & _ & Hresult & _).
  exact (Hresult Sample.workflow_activity
           (PDict {[ "errors" := PDict ∅ ]}) (PDict ∅)
           eq_refl eq_refl eq_refl).
Defined.

(** A create whose record comes back validated: it is returned as it is
    when the annotations are set, and the create fails when the first of
    them meets a server that does not answer as the CKAN API does. *)
Lemma X13_witness :
  let record := PDict (Sample.ckan_record "inst-a" "my-pid" true) in
  let w :=
    Sample.world [Returns record; Returns PNone; Returns PNone; Returns PNone]
  in
  let w1 :=
    (_call_ckan Sample.adapter "metadata_record_create" "tok"
       (create_kwargs (PStr "inst-a") Sample.record_in) w).2 in
  let v := Sample.world [Returns record; Sample.incompatible] in
  let v1 :=
    (_call_ckan Sample.adapter "metadata_record_create" "tok"
       (create_kwargs (PStr "inst-a") Sample.record_in) v).2 in
  _call_ckan Sample.adapter "metadata_record_create" "tok"
    (create_kwargs (PStr "inst-a") Sample.record_in) w = (Ret record, w1) ∧
  _call_ckan Sample.adapter "metadata_record_create" "tok"
    (create_kwargs (PStr "inst-a") Sample.record_in) v = (Ret record, v1) ∧
  py_getitem record "id" = Ret (PStr "rec-1") ∧
  py_getitem record "validated" = Ret (PBool true) ∧
  (create_or_update_metadata_record Sample.adapter (PStr "inst-a")
     Sample.record_in "tok" w).1
  = Ret (Sample.record_out "inst-a" (PStr "my-pid") true) ∧
  (create_or_update_metadata_record Sample.adapter (PStr "inst-a")
     Sample.record_in "tok" v).1
  = Exc (Unhandled ServerIncompatibleError "unexpected response").
Proof.
  intros record w w1 v v1. do 4 (split; [reflexivity |]). split.
  - destruct (X13_validated_record_is_not_validated_again Sample.adapter
                (PStr "inst-a") (PStr "rec-1") Sample.record_in "tok" w)
      as [Hcreate _].
    exact (proj1 (Hcreate record (PStr "rec-1") (PBool true) w1
                    eq_refl eq_refl eq_refl eq_refl)).
  - destruct (X13_validated_record_is_not_validated_again Sample.adapter
                (PStr "inst-a") (PStr "rec-1") Sample.record_in "tok" v)
      as [Hcreate _].
    exact (proj1 (Hcreate record (PStr "rec-1") (PBool true) v1
                    eq_refl eq_refl eq_refl eq_refl)).
Defined.

Lemma X14_witness :
  let w := Sample.world [Raises NotAuthorized "no"] in
  let created :=
    _call_ckan Sample.adapter "metadata_record_create" "tok"
      (create_kwargs (PStr "inst-a") Sample.record_in) w in
  created.1
    = Exc (HTTPException 403 "Not authorized to access CKAN resource: no") ∧
  create_or_update_metadata_record Sample.adapter (PStr "inst-a")
    Sample.record_in "tok" w
  = (Exc (HTTPException 403 "Not authorized to access CKAN resource: no"),
     created.2).
Proof.
  intros w created. split; [reflexivity |].
  destruct (X14_failed_primary_call_stops_before_annotations Sample.adapter
              (PStr "inst-a") (PStr "rec-1") Sample.record_in "tok" w)
    as [Hfail _].
  exact (Hfail _ eq_refl).
Defined.


Lemma X16_witness :
  let w := Sample.world_with_objects [] in
  let create :=
    sent Sample.adapter "metadata_collection_create" "tok"
      (collection_kwargs (PStr "inst-a") "marine-collection"
         Sample.collection_in [PStr "saeon-project"]) in
  let w' :=
    (create_collection Sample.adapter (PStr "inst-a") 1%positive "tok" w).2 in
  let again :=
    create_collection Sample.adapter (PStr "inst-a") 1%positive "tok" w' in
  collections w !! 1%positive = Some Sample.collection_in ∧
  CollectionIn.key Sample.collection_in = PStr "marine" ∧
  py_iter (CollectionIn.project_keys Sample.collection_in)
    = Ret [PStr "saeon-project"] ∧
  calls again.2 = [create; create] ∧
  collections again.2 = collections w'.
Proof.
  intros w create w' again. do 3 (split; [reflexivity |]).
  destruct (X16_second_create_sends_the_same_key Sample.adapter
              (PStr "inst-a") "tok" w 1%positive Sample.collection_in
              "marine" [PStr "saeon-project"] eq_refl eq_refl eq_refl)
    as (Hfirst & Hsecond & Hsame).
  split; [|exact Hsame].
  etrans; [exact Hsecond |]. by rewrite Hfirst.
Defined.

(** The text inside a validation message leads to the update; the same
    text in the exception of a server that does not answer as the CKAN API
    does leads to no second call. *)
Lemma X17_witness :
  let w := Sample.world_with_objects [Sample.name_taken; Returns PNone] in
  let v :=
    Sample.world_with_objects
      [Raises ServerIncompatibleError
         ("<p>" +:+ "Group name already exists in database" +:+ "</p>")] in
  let input_dict := project_kwargs "saeon-project" Sample.project_in in
  projects w !! 1%positive = Some Sample.project_in ∧
  Project.key Sample.project_in = PStr "saeon" ∧
  (call_action (ckan_server_url Sample.adapter) "infrastructure_create"
     input_dict "Bearer tok" true (backend w)).1
  = Raises ValidationError
      ("{'name': ['" +:+ "Group name already exists in database" +:+ "']}") ∧
  calls (create_or_update_project Sample.adapter 1%positive "tok" w).2
  = [sent Sample.adapter "infrastructure_create" "tok" input_dict;
     sent Sample.adapter "infrastructure_update" "tok"
       (<["id" := PStr "saeon-project"]> input_dict)] ∧
  calls (create_or_update_project Sample.adapter 1%positive "tok" v).2
  = [sent Sample.adapter "infrastructure_create" "tok" input_dict] ∧
  (create_or_update_project Sample.adapter 1%positive "tok" v).1
  = Exc (Unhandled ServerIncompatibleError
           "<p>Group name already exists in database</p>").
Proof.
  intros w v input_dict. do 3 (split; [reflexivity |]). split.
  - exact (proj1 (X17_duplicate_text_is_found_inside_the_message
                    Sample.adapter 1%positive "tok" w Sample.project_in
                    "saeon" ValidationError "{'name': ['" "']}"
                    eq_refl eq_refl eq_refl)
             eq_refl).
  - exact (X17_duplicate_text_is_found_inside_the_message
             Sample.adapter 1%positive "tok" v Sample.project_in
             "saeon" ServerIncompatibleError "<p>" "</p>"
             eq_refl eq_refl eq_refl).
Defined.

Lemma X18_witness :
  let w :=
    Sample.world
      [Returns (PDict (Sample.ckan_record "inst-a" "my-pid" false));
       Returns Sample.validation_activity] in
  let run :=
    validate_metadata_record Sample.adapter (PStr "inst-a") (PStr "rec-1")
      "tok" w in
  run = (Ret Sample.validation_result, run.2) ∧
  ∃ fragments : list (gmap string pyval),
    (∀ k, is_Some (MetadataValidationResult.errors Sample.validation_result
                     !! k)
          ↔ ∃ f, f ∈ fragments ∧ is_Some (f !! k)) ∧
    (MetadataValidationResult.success Sample.validation_result = true
     ↔ Forall (λ f, f = ∅) fragments).
Proof.
  intros w run. split; [reflexivity |].
  destruct (X18_validation_keeps_every_reported_key Sample.adapter
              (PStr "inst-a") (PStr "rec-1") "tok" w run.2
              Sample.validation_result eq_refl)
    as (w0 & v & data & results & items & fragments
        & _ & _ & _ & _ & _ & Hkeys & Hsuccess & _).
  exists fragments. split; [exact Hkeys | exact Hsuccess].
Defined.

Lemma X19_witness :
  let w :=
    @mkWorld Sample.env [] [] []
      {[ 1%positive := Sample.collection_without_projects ]} ∅ in
  collections w !! 1%positive = Some Sample.collection_without_projects ∧
  CollectionIn.key Sample.collection_without_projects = PStr "marine" ∧
  py_iter (CollectionIn.project_keys Sample.collection_without_projects)
    = Exc TypeError ∧
  create_collection Sample.adapter (PStr "inst-a") 1%positive "tok" w
  = (Exc TypeError,
     collections_updated 1%positive
       (collection_with_key "marine-collection"
          Sample.collection_without_projects) w).
Proof.
  intros w. do 3 (split; [reflexivity |]).
  destruct (X19_malformed_object_is_rejected_before_any_call Sample.adapter
              (PStr "inst-a") "tok" w) as (_ & _ & Hkeys).
  exact (Hkeys 1%positive Sample.collection_without_projects "marine"
           TypeError eq_refl eq_refl eq_refl).
Defined.

(** An update whose response is not a record: the annotations are set
    before the operation raises; when the first of them raises, that is
    the exception of the update. *)
Lemma X20_witness :
  let record := PDict (Sample.ckan_record "inst-a" "my-pid" true) in
  let w :=
    Sample.world [Returns record; Returns PNone; Returns PNone; Returns PNone;
                  Returns PNone] in
  let w0 :=
    (get_metadata_record Sample.adapter (PStr "inst-a") (PStr "rec-1") "tok"
       w).2 in
  let w1 :=
    (_call_ckan Sample.adapter "metadata_record_update" "tok"
       (update_kwargs (PStr "inst-a") (PStr "rec-1") Sample.record_in) w0).2 in
  let v := Sample.world [Returns record; Returns PNone; Sample.incompatible] in
  let v0 :=
    (get_metadata_record Sample.adapter (PStr "inst-a") (PStr "rec-1") "tok"
       v).2 in
  let v1 :=
    (_call_ckan Sample.adapter "metadata_record_update" "tok"
       (update_kwargs (PStr "inst-a") (PStr "rec-1") Sample.record_in) v0).2 in
  get_metadata_record Sample.adapter (PStr "inst-a") (PStr "rec-1") "tok" w
    = (Ret (Sample.record_out "inst-a" (PStr "my-pid") true), w0) ∧
  _call_ckan Sample.adapter "metadata_record_update" "tok"
    (update_kwargs (PStr "inst-a") (PStr "rec-1") Sample.record_in) w0
    = (Ret PNone, w1) ∧
  py_getitem PNone "validated" = Exc TypeError ∧
  (update_metadata_record Sample.adapter (PStr "inst-a") (PStr "rec-1")
     Sample.record_in "tok" w).1 = Exc TypeError ∧
  (update_metadata_record Sample.adapter (PStr "inst-a") (PStr "rec-1")
     Sample.record_in "tok" v).1
  = Exc (Unhandled ServerIncompatibleError "unexpected response").
Proof.
  intros record w w0 w1 v v0 v1. do 3 (split; [reflexivity |]). split.
  - destruct (X20_missing_flag_raises_after_the_annotations Sample.adapter
                (PStr "inst-a") (PStr "rec-1") Sample.record_in "tok" w)
      as [_ Hupdate].
    exact (f_equal fst
             (proj1 (Hupdate _ w0 PNone TypeError w1
                       eq_refl eq_refl eq_refl))).
  - destruct (X20_missing_flag_raises_after_the_annotations Sample.adapter
                (PStr "inst-a") (PStr "rec-1") Sample.record_in "tok" v)
      as [_ Hupdate].
    exact (f_equal fst
             (proj1 (Hupdate _ v0 PNone TypeError v1
                       eq_refl eq_refl eq_refl))).
Defined.

